(** * The workflow engine of [scripts/claude-orchestrator.py]

    A shallow embedding of [ClaudeOrchestrator]: the two enumerations, the
    Python values a step dictionary can hold, the orchestrator's state
    (history, printed log, written files) and its five methods, followed by
    the properties of the engine.

    What lies outside the Python program is a parameter of the model: the
    clock, the child process started by [subprocess.run], [time.sleep], the
    builtin [eval], the order in which worker threads finish, and whether a
    file can be opened.  They are collected in [Platform]; every theorem
    holds for every platform. *)

From Stdlib Require Import ZArith Lia Ascii String.
From stdpp Require Import base option list strings gmap pretty.

Set Warnings "-register-all".

Local Open Scope string_scope.
Local Open Scope list_scope.
Local Open Scope Z_scope.

(** ** The enumerations (lines 17-38) *)

Inductive ClaudeTool :=
  | TASK | BASH | EDIT | WRITE | READ | WEBFETCH | WEBSEARCH | BATCH
  | GLOB | GREP | LS.

Inductive ThinkLevel :=
  | NORMAL | THINK | THINK_HARD | THINK_HARDER | ULTRATHINK | MEGATHINK.

Module ClaudeToolM.
Definition value (t : ClaudeTool) : string :=
  match t with
  | TASK => "Task" | BASH => "Bash" | EDIT => "Edit" | WRITE => "Write"
  | READ => "Read" | WEBFETCH => "WebFetch" | WEBSEARCH => "WebSearch"
  | BATCH => "Batch" | GLOB => "Glob" | GREP => "Grep" | LS => "LS"
  end.

Definition name (t : ClaudeTool) : string :=
  match t with
  | TASK => "TASK" | BASH => "BASH" | EDIT => "EDIT" | WRITE => "WRITE"
  | READ => "READ" | WEBFETCH => "WEBFETCH" | WEBSEARCH => "WEBSEARCH"
  | BATCH => "BATCH" | GLOB => "GLOB" | GREP => "GREP" | LS => "LS"
  end.

(** Members in definition order, as iterating the class yields them. *)
Definition members : list ClaudeTool :=
  [TASK; BASH; EDIT; WRITE; READ; WEBFETCH; WEBSEARCH; BATCH; GLOB; GREP; LS].

(** The member whose value is [s], if any. *)
Definition of_value (s : string) : option ClaudeTool :=
  List.find (fun t => String.eqb (value t) s) members.
End ClaudeToolM.

Module ThinkLevelM.
Definition value (t : ThinkLevel) : string :=
  match t with
  | NORMAL => "" | THINK => "think" | THINK_HARD => "think hard"
  | THINK_HARDER => "think harder" | ULTRATHINK => "ultrathink"
  | MEGATHINK => "megathink"
  end.

Definition name (t : ThinkLevel) : string :=
  match t with
  | NORMAL => "NORMAL" | THINK => "THINK" | THINK_HARD => "THINK_HARD"
  | THINK_HARDER => "THINK_HARDER" | ULTRATHINK => "ULTRATHINK"
  | MEGATHINK => "MEGATHINK"
  end.

Definition members : list ThinkLevel :=
  [NORMAL; THINK; THINK_HARD; THINK_HARDER; ULTRATHINK; MEGATHINK].

Definition of_value (s : string) : option ThinkLevel :=
  List.find (fun t => String.eqb (value t) s) members.
End ThinkLevelM.

(** ** Python values

    The values a workflow definition is built from: what JSON can hold,
    and members of the two enumerations (a caller of [run_claude_code]
    passes members, a workflow file holds strings).  A dictionary is an
    association list in insertion order.  Floating-point numbers are left
    out. *)

Inductive PyVal :=
  | VNone
  | VBool (b : bool)
  | VInt (n : Z)
  | VStr (s : string)
  | VList (items : list PyVal)
  | VDict (entries : list (string * PyVal))
  | VTool (t : ClaudeTool)
  | VThink (t : ThinkLevel).

Definition Dict := list (string * PyVal).

(** A step of a workflow: the dictionary of its keys, with the value of the
    key ["steps"] (the nested steps of a conditional step, again a list of
    step dictionaries, as the annotation [List[Dict[str, Any]]] says) kept
    apart so that the nesting is visible to the recursion.  The program
    reads that key with [step.get("steps", [])] only, so a step without
    the key has the empty list here. *)
Inductive Step :=
  | mkStep (fields : Dict) (nested : list Step).

Definition step_fields (s : Step) : Dict :=
  match s with mkStep f _ => f end.

(** [step.get("steps", [])] *)
Definition step_nested (s : Step) : list Step :=
  match s with mkStep _ n => n end.

(** A workflow dictionary: ["name"], ["steps"] and whatever other keys it
    has (["description"] and ["created"] after [create_workflow]). *)
Record Workflow := {
  wf_name : string;
  wf_info : Dict;
  wf_steps : list Step
}.

(** The exceptions the engine can run into. *)
Inductive PyExn :=
  | KeyError (key : string)
  | ValueError
  | TypeError
  | AttributeError
  | OSError
  | Raised (what : string).

Inductive Outcome (A : Type) :=
  | Ok (a : A)
  | Raise (e : PyExn).
Arguments Ok {A} a.
Arguments Raise {A} e.

(** *** Dictionary access *)

Fixpoint dict_lookup (d : Dict) (k : string) : option PyVal :=
  match d with
  | [] => None
  | (k', v) :: d' => if String.eqb k' k then Some v else dict_lookup d' k
  end.

(** [d.get(k, default)] *)
Definition dict_get (d : Dict) (k : string) (default : PyVal) : PyVal :=
  match dict_lookup d k with Some v => v | None => default end.

(** [d[k]] *)
Definition dict_item (d : Dict) (k : string) : Outcome PyVal :=
  match dict_lookup d k with Some v => Ok v | None => Raise (KeyError k) end.

(** [task[k]] on an arbitrary value: only a dictionary can be indexed by a
    string. *)
Definition py_item (v : PyVal) (k : string) : Outcome PyVal :=
  match v with
  | VDict d => dict_item d k
  | _ => Raise TypeError
  end.

(** [task.get(k, default)] on an arbitrary value. *)
Definition py_get (v : PyVal) (k : string) (default : PyVal) : Outcome PyVal :=
  match v with
  | VDict d => Ok (dict_get d k default)
  | _ => Raise AttributeError
  end.

(** *** Truth, iteration, conversion *)

(** [bool(v)]: enumeration members are always true. *)
Definition truthy (v : PyVal) : bool :=
  match v with
  | VNone => false
  | VBool b => b
  | VInt n => negb (n =? 0)
  | VStr s => negb (String.eqb s "")
  | VList l => match l with [] => false | _ => true end
  | VDict d => match d with [] => false | _ => true end
  | VTool _ | VThink _ => true
  end.

(** [not result] for the [Optional[str]] that [run_claude_code] returns:
    true for [None] and for the empty string. *)
Definition not_result (r : option string) : bool :=
  match r with
  | None => true
  | Some s => String.eqb s ""
  end.

Fixpoint chars (s : string) : list string :=
  match s with
  | EmptyString => []
  | String c s' => String c EmptyString :: chars s'
  end.

(** What a [for] loop or comprehension over [v] visits: the items of a
    list, the characters of a string, the keys of a dictionary. *)
Definition py_iter (v : PyVal) : Outcome (list PyVal) :=
  match v with
  | VList l => Ok l
  | VStr s => Ok (VStr <$> chars s)
  | VDict d => Ok ((fun kv => VStr kv.1) <$> d)
  | _ => Raise TypeError
  end.

(** [ClaudeTool(v)]: lookup by value; a member is returned as it is. *)
Definition ClaudeTool_call (v : PyVal) : Outcome ClaudeTool :=
  match v with
  | VStr s =>
      match ClaudeToolM.of_value s with
      | Some t => Ok t
      | None => Raise ValueError
      end
  | VTool t => Ok t
  | _ => Raise ValueError
  end.

(** [ThinkLevel(v)] *)
Definition ThinkLevel_call (v : PyVal) : Outcome ThinkLevel :=
  match v with
  | VStr s =>
      match ThinkLevelM.of_value s with
      | Some t => Ok t
      | None => Raise ValueError
      end
  | VThink t => Ok t
  | _ => Raise ValueError
  end.

(** [v.value]: only enumeration members have the attribute. *)
Definition py_value (v : PyVal) : Outcome string :=
  match v with
  | VTool t => Ok (ClaudeToolM.value t)
  | VThink t => Ok (ThinkLevelM.value t)
  | _ => Raise AttributeError
  end.

(** [think_level != ThinkLevel.NORMAL] *)
Definition is_NORMAL (v : PyVal) : bool :=
  match v with
  | VThink NORMAL => true
  | _ => false
  end.

(** [v == s] for a string literal [s]. *)
Definition eq_str (v : PyVal) (s : string) : bool :=
  match v with
  | VStr s' => String.eqb s' s
  | _ => false
  end.

(** Applies [f] to the items in order and stops at the first exception,
    as a list comprehension does. *)
Fixpoint comprehension {A B : Type} (f : A -> Outcome B) (l : list A)
  : Outcome (list B) :=
  match l with
  | [] => Ok []
  | x :: l' =>
      match f x with
      | Raise e => Raise e
      | Ok y =>
          match comprehension f l' with
          | Raise e => Raise e
          | Ok ys => Ok (y :: ys)
          end
      end
  end.

(** [' '.join(cmd)] for a list of strings. *)
Fixpoint join (sep : string) (l : list string) : string :=
  match l with
  | [] => ""
  | [x] => x
  | x :: l' => x +:+ sep +:+ join sep l'
  end.

(** [str(v)], as an f-string renders a value.  The text of a list or of a
    dictionary is Python's [repr] of it, which is taken as a parameter. *)
Definition py_str (repr : PyVal -> string) (v : PyVal) : string :=
  match v with
  | VNone => "None"
  | VBool true => "True"
  | VBool false => "False"
  | VInt n => pretty n
  | VStr s => s
  | VTool t => "ClaudeTool." +:+ ClaudeToolM.name t
  | VThink t => "ThinkLevel." +:+ ThinkLevelM.name t
  | VList _ | VDict _ => repr v
  end.

(** What [json.dump] accepts: everything but enumeration members. *)
Fixpoint json_ok (v : PyVal) : bool :=
  match v with
  | VTool _ | VThink _ => false
  | VList l => forallb json_ok l
  | VDict d => forallb (fun kv => json_ok (snd kv)) d
  | _ => true
  end.

Fixpoint step_json_ok (s : Step) : bool :=
  match s with
  | mkStep f n =>
      forallb (fun kv => json_ok (snd kv)) f && forallb step_json_ok n
  end.

(** ** State of the orchestrator and of its surroundings *)

(** One dictionary appended to [self.workflow_history] (lines 94-101). *)
Record HistoryEntry := {
  h_timestamp : string;
  h_type : string;
  h_prompt : string;
  h_tools : list string;
  h_think_level : string;
  h_success : bool
}.

(** A reading of the clock, in the two renderings the program uses. *)
Record datetime := {
  isoformat : string;
  strftime : string
}.

(** A line printed by [log]: timestamp, level, message. *)
Record LogLine := {
  l_timestamp : string;
  l_level : string;
  l_message : string
}.

(** What [subprocess.run] comes back with. *)
Inductive Completed :=
  | CompletedProcess (returncode : Z) (out err : string)
  | TimeoutExpired
  | LaunchError (message : string).

(** The content of a file written by [json.dump], taken as the document it
    encodes; the layout of the text ([indent=2]) is not modelled.  When
    [json.dump] meets a value it cannot encode it has already written the
    beginning of the text: [PartialFile]. *)
Inductive FileData :=
  | WorkflowFile (w : Workflow)
  | HistoryFile (h : list HistoryEntry)
  | PartialFile.

(** The calls that leave the program, in the order they are made (a record
    kept by the model, not by the program). *)
Inductive Event :=
  | Spawned (cmd : list string) (timeout : PyVal)
  | Slept (seconds : Z)
  | Evaluated (expr : string)
  | Written (path : string).

Section Engine.
Context {World : Type}.

Record State := mkState {
  debug : bool;
  workflow_history : list HistoryEntry;
  stdout : list LogLine;
  files : gmap string FileData;
  calls : list Event;
  world : World
}.

(** The surroundings of the program. *)
Record Platform := {
  (** [datetime.now()] *)
  clock : World -> datetime * World;
  (** [subprocess.run(cmd, capture_output=True, text=True, timeout=...)] *)
  subprocess_run : list string -> PyVal -> World -> Completed * World;
  (** [time.sleep(seconds)] *)
  time_sleep : Z -> World -> World;
  (** [eval(condition)] inside [execute_workflow], with the workflow and
      the index of the step at hand: it may return any value, raise, and
      change anything the interpreter can reach. *)
  builtin_eval : string -> Workflow -> nat -> State -> Outcome PyVal * State;
  (** Which of the [n] worker threads still running finishes next. *)
  next_thread : nat -> World -> nat;
  (** Whether [os.makedirs(dir, exist_ok=True)] goes through. *)
  can_makedirs : string -> World -> bool;
  (** Whether [open(path, 'w')] goes through. *)
  can_open : string -> World -> bool;
  (** [repr] of a list or dictionary. *)
  py_repr : PyVal -> string
}.

(** *** Computations: a state transformer that returns or raises *)

Definition M (A : Type) : Type := State -> Outcome A * State.

Definition ret {A} (a : A) : M A := fun st => (Ok a, st).

Definition raise {A} (e : PyExn) : M A := fun st => (Raise e, st).

Definition bind {A B} (c : M A) (k : A -> M B) : M B :=
  fun st =>
    match c st with
    | (Ok a, st') => k a st'
    | (Raise e, st') => (Raise e, st')
    end.

(** A pure step that may raise. *)
Definition lift {A} (o : Outcome A) : M A := fun st => (o, st).

Definition set_world (w : World) (st : State) : State :=
  mkState (debug st) (workflow_history st) (stdout st) (files st) (calls st) w.

Definition set_history (h : list HistoryEntry) (st : State) : State :=
  mkState (debug st) h (stdout st) (files st) (calls st) (world st).

Definition set_stdout (o : list LogLine) (st : State) : State :=
  mkState (debug st) (workflow_history st) o (files st) (calls st) (world st).

Definition set_files (f : gmap string FileData) (st : State) : State :=
  mkState (debug st) (workflow_history st) (stdout st) f (calls st) (world st).

Definition record (e : Event) (st : State) : State :=
  mkState (debug st) (workflow_history st) (stdout st) (files st)
          (calls st ++ [e]) (world st).

End Engine.

Arguments State : clear implicits.
Arguments Platform : clear implicits.
Arguments M : clear implicits.

Declare Scope py_scope.
Delimit Scope py_scope with py.
Notation "x <- c ;; k" := (bind c (fun x => k))
  (at level 100, c at next level, right associativity) : py_scope.
Notation "c ;;; k" := (bind c (fun _ => k))
  (at level 100, right associativity) : py_scope.

Local Open Scope py_scope.

(** ** The methods of [ClaudeOrchestrator] *)

Section Orchestrator.
Context {World : Type} (P : Platform World).

Abbreviation M := (M World).

(** [datetime.now()] *)
Definition datetime_now : M datetime := fun st =>
  let '(t, w) := clock P (world st) in (Ok t, set_world w st).

(** [log] (lines 47-50): one line on standard output. *)
Definition log (message : string) (level : string) : M unit :=
  t <- datetime_now;;
  fun st =>
    (Ok tt,
     set_stdout (stdout st ++ [{| l_timestamp := strftime t;
                                  l_level := level;
                                  l_message := message |}]) st).

(** [subprocess.run(cmd, capture_output=True, text=True, timeout=timeout)];
    by the time it is called every item of [cmd] is a string. *)
Definition spawn (cmd : list string) (timeout : PyVal) : M Completed :=
  fun st =>
    let '(r, w) := subprocess_run P cmd timeout (world st) in
    (Ok r, set_world w (record (Spawned cmd timeout) st)).

Definition append_history (e : HistoryEntry) : M unit := fun st =>
  (Ok tt, set_history (workflow_history st ++ [e]) st).

(** Lines 75-110 of [run_claude_code], for the command built before: the
    announcement, and the [try] block with its three ways out. *)
Definition launch (cmd : list string) (timeout : PyVal) (prompt : string)
    (tool_names : list string) (think_value : string) : M (option string) :=
  log ("Running Claude Code: " +:+ join " " (take 3 cmd) +:+ "...") "INFO";;;
  (fun st => (if debug st
              then log ("Full command: " +:+ join " " cmd) "DEBUG"
              else ret tt) st);;;
  (* try: *)
  result <- spawn cmd timeout;;
  match result with
  | CompletedProcess returncode out err =>
      if negb (returncode =? 0) then
        log ("Error: " +:+ err) "ERROR";;;
        ret None
      else
        now <- datetime_now;;
        append_history {| h_timestamp := isoformat now;
                          h_type := "claude_code";
                          h_prompt := prompt;
                          h_tools := tool_names;
                          h_think_level := think_value;
                          h_success := true |};;;
        ret (Some out)
  | TimeoutExpired =>
      log "Command timed out" "ERROR";;;
      ret None
  | LaunchError message =>
      log ("Exception: " +:+ message) "ERROR";;;
      ret None
  end.

(** [run_claude_code] (lines 52-110).  The four arguments are whatever
    the caller passes; the annotations are not enforced.  Building the
    command can raise before the [try] block is entered: [.value] on
    something that is not an enumeration member, iterating something that
    is not iterable, and [' '.join(cmd[:3])] on a prompt that is not a
    string. *)
Definition run_claude_code (prompt tools think_level timeout : PyVal)
  : M (option string) :=
  (* if think_level != ThinkLevel.NORMAL: prompt = f"{think_level.value} {prompt}" *)
  think_value <- lift (if is_NORMAL think_level then Ok ""
                       else py_value think_level);;
  let prompt :=
    if is_NORMAL think_level then prompt
    else VStr (think_value +:+ " " +:+ py_str (py_repr P) prompt) in
  (* if tools: tool_names = [tool.value for tool in tools] *)
  tool_names <- lift (if truthy tools
                      then match py_iter tools with
                           | Ok items => comprehension py_value items
                           | Raise e => Raise e
                           end
                      else Ok []);;
  match prompt with
  | VStr prompt =>
      let cmd := ["claude"; "-p"; prompt]
                 ++ (if truthy tools then "--allowedTools" :: tool_names
                     else []) in
      launch cmd timeout prompt tool_names think_value
  | _ => raise TypeError
  end.

(** The coroutine [run_task] of [run_parallel_tasks] (lines 118-125). *)
Definition run_task (task : PyVal) : M (option string) :=
  prompt <- lift (py_item task "prompt");;
  tools <- lift (py_get task "tools" VNone);;
  think_level <- lift (py_get task "think_level" (VThink NORMAL));;
  timeout <- lift (py_get task "timeout" VNone);;
  run_claude_code prompt tools think_level timeout.

(** [asyncio.gather] over worker threads.  The threads run side by side;
    the model lets them finish one after the other, each call of
    [run_claude_code] as a whole, in the order the platform picks:
    [pending] holds the tasks not yet finished with their positions ([n]
    is their number), and the result of a task is stored at its position
    whichever its turn.
    The first exception ends the gathering; what the threads still
    running do after that is not modelled. *)
Fixpoint gather (n : nat) (pending : list (nat * PyVal))
    (results : list (option string)) : M (list (option string)) :=
  match n with
  | O => ret results
  | S n' => fun st =>
      let k := (next_thread P (length pending) (world st)
                `mod` length pending)%nat in
      match pending !! k with
      | None => (Ok results, st)
      | Some (i, task) =>
          (r <- run_task task;;
           gather n' (delete k pending) (<[i := r]> results)) st
      end
  end.

(** [run_parallel_tasks] (lines 112-130) *)
Definition run_parallel_tasks (tasks : PyVal) : M (list (option string)) :=
  items <- lift (py_iter tasks);;
  log ("Running " +:+ pretty (length items) +:+ " tasks in parallel...") "INFO";;;
  gather (length items) (imap pair items) (replicate (length items) None).

(** *** Storage *)

(** [name.lower().replace(' ', '-')] on ASCII text. *)
Definition lower_char (c : ascii) : ascii :=
  let n := nat_of_ascii c in
  if (65 <=? n)%nat && (n <=? 90)%nat then ascii_of_nat (n + 32) else c.

Fixpoint storage_key (name : string) : string :=
  match name with
  | EmptyString => EmptyString
  | String c rest =>
      let c := lower_char c in
      String (if Ascii.eqb c " "%char then "-"%char else c) (storage_key rest)
  end.

Definition workflow_file (name : string) : string :=
  "workflows/" +:+ storage_key name +:+ ".json".

(** [os.makedirs(dir, exist_ok=True)] *)
Definition makedirs (dir : string) : M unit := fun st =>
  if can_makedirs P dir (world st) then (Ok tt, st) else (Raise OSError, st).

(** [with open(path, 'w') as f: json.dump(obj, f, indent=2)].  Opening
    for writing empties the file; [encodable] tells whether [json.dump]
    gets to the end of [obj]. *)
Definition dump_to (path : string) (encodable : bool) (doc : FileData)
  : M unit := fun st =>
  if can_open P path (world st) then
    let st := record (Written path) st in
    if encodable
    then (Ok tt, set_files (<[path := doc]> (files st)) st)
    else (Raise TypeError, set_files (<[path := PartialFile]> (files st)) st)
  else (Raise OSError, st).

(** [create_workflow] (lines 132-155) *)
Definition create_workflow (name description : string) (steps : list Step)
  : M Workflow :=
  now <- datetime_now;;
  let workflow := {| wf_name := name;
                     wf_info := [("description", VStr description);
                                 ("created", VStr (isoformat now))];
                     wf_steps := steps |} in
  makedirs "workflows";;;
  dump_to (workflow_file name) (forallb step_json_ok steps)
          (WorkflowFile workflow);;;
  log ("Created workflow: " +:+ name) "INFO";;;
  ret workflow.

(** [save_history] (lines 211-217); the entries of the history hold
    strings and a boolean only, so [json.dump] always gets to the end. *)
Definition save_history (filename : string) : M unit :=
  fun st =>
    (dump_to filename true (HistoryFile (workflow_history st));;;
     log ("Saved workflow history to " +:+ filename) "INFO") st.

Definition default_history_file : string := "workflow-history.json".

(** *** Running a workflow *)

(** The call of lines 169-174, arguments evaluated left to right. *)
Definition claude_code_call (step : Dict) : M (option string) :=
  prompt <- lift (dict_item step "prompt");;
  tokens <- lift (py_iter (dict_get step "tools" (VList [])));;
  tools <- lift (comprehension ClaudeTool_call tokens);;
  think_level <- lift (ThinkLevel_call (dict_get step "think_level" (VStr "")));;
  run_claude_code prompt (VList (VTool <$> tools)) (VThink think_level)
                  (dict_get step "timeout" VNone).

(** The loop of lines 186-189 over [zip(parallel_tasks, results)];
    [Some false] stands for [return False], [None] for falling out of
    the loop. *)
Fixpoint check_parallel (j : nat) (pairs : list (PyVal * option string))
  : M (option bool) :=
  match pairs with
  | [] => ret None
  | (task, result) :: rest =>
      if not_result result then
        required <- lift (py_get task "required" (VBool true));;
        if truthy required then
          log ("Required parallel task " +:+ pretty (j + 1)%nat +:+ " failed")
              "ERROR";;;
          ret (Some false)
        else check_parallel (S j) rest
      else check_parallel (S j) rest
  end.

(** The argument of [time.sleep]: a number that is not negative. *)
Definition sleep_seconds (v : PyVal) : Outcome Z :=
  match v with
  | VInt n => if n <? 0 then Raise ValueError else Ok n
  | VBool b => Ok (if b then 1 else 0)
  | _ => Raise TypeError
  end.

Definition sleep (seconds : Z) : M unit := fun st =>
  (Ok tt, set_world (time_sleep P seconds (world st)) (record (Slept seconds) st)).

(** [eval(condition)]: the text goes to the builtin as it is. *)
Definition eval (condition : PyVal) (workflow : Workflow) (i : nat) : M PyVal :=
  match condition with
  | VStr expr => fun st => builtin_eval P expr workflow i (record (Evaluated expr) st)
  | _ => raise TypeError
  end.

(** The body of the [for] loop of [execute_workflow] (lines 163-206) for
    the step at index [i]; [execute_workflow] itself is the argument
    [recur].  [Some b] stands for [return b], [None] for going on with
    the next step. *)
Definition step_body (recur : Workflow -> M bool) (workflow : Workflow)
    (i : nat) (step : Step) : M (option bool) :=
  let fields := step_fields step in
  log ("Step " +:+ pretty (i + 1)%nat +:+ "/"
       +:+ pretty (length (wf_steps workflow)) +:+ ": "
       +:+ py_str (py_repr P) (dict_get fields "name" (VStr "Unnamed"))) "INFO";;;
  let step_type := dict_get fields "type" (VStr "claude_code") in
  if eq_str step_type "claude_code" then
    result <- claude_code_call fields;;
    if not_result result && truthy (dict_get fields "required" (VBool true))
    then
      log ("Required step failed: "
           +:+ py_str (py_repr P) (dict_get fields "name" VNone)) "ERROR";;;
      ret (Some false)
    else ret None
  else if eq_str step_type "parallel" then
    let parallel_tasks := dict_get fields "tasks" (VList []) in
    results <- run_parallel_tasks parallel_tasks;;
    tasks <- lift (py_iter parallel_tasks);;
    check_parallel 0 (zip tasks results)
  else if eq_str step_type "wait" then
    let wait_time := dict_get fields "seconds" (VInt 1) in
    log ("Waiting " +:+ py_str (py_repr P) wait_time +:+ " seconds...") "INFO";;;
    seconds <- lift (sleep_seconds wait_time);;
    sleep seconds;;;
    ret None
  else if eq_str step_type "conditional" then
    let condition := dict_get fields "condition" VNone in
    if truthy condition then
      value <- eval condition workflow i;;
      if truthy value then
        let sub_workflow :=
          {| wf_name := wf_name workflow +:+ " - Conditional";
             wf_info := [];
             wf_steps := step_nested step |} in
        recur sub_workflow;;;
        ret None
      else ret None
    else ret None
  else ret None.

(** The [for] loop: the steps in order, until one returns. *)
Definition for_steps (body : nat -> Step -> M (option bool))
  : nat -> list Step -> M (option bool) :=
  fix go (i : nat) (steps : list Step) : M (option bool) :=
    match steps with
    | [] => ret None
    | step :: rest =>
        r <- body i step;;
        match r with
        | Some b => ret (Some b)
        | None => go (S i) rest
        end
    end.

(** [execute_workflow] (lines 157-209) around a given loop body. *)
Definition workflow_run (body : Workflow -> nat -> Step -> M (option bool))
    (workflow : Workflow) : M bool :=
  log ("Executing workflow: " +:+ wf_name workflow) "INFO";;;
  r <- for_steps (body workflow) 0 (wf_steps workflow);;
  match r with
  | Some b => ret b
  | None =>
      log ("Workflow completed: " +:+ wf_name workflow) "INFO";;;
      ret true
  end.

(** The loop body with the recursion tied: by recursion on the nesting
    of the step. *)
Fixpoint execute_step (workflow : Workflow) (i : nat) (step : Step)
    {struct step} : M (option bool) :=
  step_body (workflow_run execute_step) workflow i step.

Definition execute_workflow (workflow : Workflow) : M bool :=
  workflow_run execute_step workflow.

End Orchestrator.

(** * Notions the properties are stated with *)

Section Notions.
Context {World : Type} (P : Platform World).

(** The state after [log message level]. *)
Definition logged (message level : string) (st : State World)
  : State World :=
  (log P message level st).2.

(** The line every step starts with. *)
Definition step_line (workflow : Workflow) (i : nat) (step : Step) : string :=
  "Step " +:+ pretty (i + 1)%nat +:+ "/"
  +:+ pretty (length (wf_steps workflow)) +:+ ": "
  +:+ py_str (py_repr P) (dict_get (step_fields step) "name" (VStr "Unnamed")).

(** The line printed when a required step has failed. *)
Definition failure_line (step : Step) : string :=
  "Required step failed: "
  +:+ py_str (py_repr P) (dict_get (step_fields step) "name" VNone).

(** The state in which the child process is started: after the line that
    announces it, and the line with the full command when [debug] is on. *)
Definition announced (cmd : list string) (st : State World) : State World :=
  let st1 := logged ("Running Claude Code: " +:+ join " " (take 3 cmd) +:+ "...")
                    "INFO" st in
  if debug st1 then logged ("Full command: " +:+ join " " cmd) "DEBUG" st1
  else st1.

(** What a call of [run_claude_code] amounts to. *)
Inductive Invocation (timeout : PyVal) (st : State World)
  : Outcome (option string) -> State World -> Prop :=
  | not_started e :
      Invocation timeout st (Raise e) st
  | exited_zero prompt tool_names think_value cmd out err w now w' :
      cmd = ["claude"; "-p"; prompt]
            ++ match tool_names with [] => [] | _ => "--allowedTools" :: tool_names end ->
      subprocess_run P cmd timeout (world (announced cmd st))
      = (CompletedProcess 0 out err, w) ->
      clock P w = (now, w') ->
      Invocation timeout st (Ok (Some out))
        (mkState (debug st)
           (workflow_history st
            ++ [{| h_timestamp := isoformat now; h_type := "claude_code";
                   h_prompt := prompt; h_tools := tool_names;
                   h_think_level := think_value; h_success := true |}])
           (stdout (announced cmd st)) (files st)
           (calls st ++ [Spawned cmd timeout]) w')
  | failed cmd result w st' :
      subprocess_run P cmd timeout (world (announced cmd st)) = (result, w) ->
      (forall out err, result <> CompletedProcess 0 out err) ->
      workflow_history st' = workflow_history st ->
      files st' = files st ->
      calls st' = calls st ++ [Spawned cmd timeout] ->
      Invocation timeout st (Ok None) st'.

(** Modelled from the spec: the operation [load(name)] of the workflow
    store, which the program does not have.  It reads the document stored
    under the key derived from the name, as [create] derives it, and fails
    with NotFound when there is none. *)
Definition load_workflow (name : string) : M World Workflow := fun st =>
  match files st !! workflow_file name with
  | Some (WorkflowFile workflow) => (Ok workflow, st)
  | Some _ => (Raise ValueError, st)
  | None => (Raise (Raised "NotFound"), st)
  end.

End Notions.

(** The workflow a conditional step runs (lines 202-205). *)
Definition sub_workflow (workflow : Workflow) (step : Step) : Workflow :=
  {| wf_name := wf_name workflow +:+ " - Conditional";
     wf_info := [];
     wf_steps := step_nested step |}.

(** The dictionary [create_workflow] builds at time [now]. *)
Definition definition_of (name description : string) (now : datetime)
    (steps : list Step) : Workflow :=
  {| wf_name := name;
     wf_info := [("description", VStr description);
                 ("created", VStr (isoformat now))];
     wf_steps := steps |}.

(** A step whose ["type"] is a string that names none of the four kinds. *)
Definition unrecognised (step : Step) : Prop :=
  exists s, dict_lookup (step_fields step) "type" = Some (VStr s)
            /\ s <> "claude_code" /\ s <> "parallel"
            /\ s <> "wait" /\ s <> "conditional".

(** A token that is neither the value of a member of [ClaudeTool] nor a
    member. *)
Definition unknown_token (token : PyVal) : Prop :=
  forall t, token <> VStr (ClaudeToolM.value t) /\ token <> VTool t.

Definition is_tool (v : PyVal) : bool :=
  match v with VTool _ => true | _ => false end.

(** A task as the annotations of [run_claude_code] want its arguments: a
    dictionary whose prompt is a string, whose tools, if given, are
    [None] or a list of members of [ClaudeTool], and whose think level, if
    given, is a member of [ThinkLevel]. *)
Definition typed_task (task : PyVal) : bool :=
  match task with
  | VDict d =>
      match dict_lookup d "prompt" with Some (VStr _) => true | _ => false end
      && match dict_get d "tools" VNone with
         | VNone => true
         | VList items => forallb is_tool items
         | _ => false
         end
      && match dict_get d "think_level" (VThink NORMAL) with
         | VThink _ => true
         | _ => false
         end
  | _ => false
  end.

(** [task.get("required", True)], as a truth value. *)
Definition required (task : PyVal) : bool :=
  match task with
  | VDict d => truthy (dict_get d "required" (VBool true))
  | _ => false
  end.

(** The test of line 187 on a pair of [zip(parallel_tasks, results)]. *)
Definition failed_required (pair : PyVal * option string) : bool :=
  not_result pair.2 && required pair.1.

(** ** A platform to run examples on

    The world is a counter that the clock advances.  The child process
    exits with status 1 when the prompt is ["fail"], exits with status 0
    and prints nothing when the prompt is ["quiet"], and otherwise exits
    with status 0 and prints ["ok"].  [eval] knows the Python expressions
    used in the examples below and gives what Python gives for them.
    Worker threads finish last-started first. *)

Definition demo_process (cmd : list string) : Completed :=
  match cmd with
  | _ :: _ :: prompt :: _ =>
      if String.eqb prompt "fail" then CompletedProcess 1 "" "failed"
      else if String.eqb prompt "quiet" then CompletedProcess 0 "" ""
      else CompletedProcess 0 "ok" ""
  | _ => LaunchError "no prompt"
  end.

Definition demo_eval (expr : string) (workflow : Workflow) : Outcome PyVal :=
  if String.eqb expr "True" then Ok (VBool true)
  else if String.eqb expr "False" then Ok (VBool false)
  else if String.eqb expr "len(workflow['steps']) > 0"
  then Ok (VBool (0 <? length (wf_steps workflow))%nat)
  else Raise (Raised "NameError").

Definition demo : Platform nat := {|
  clock w := ({| isoformat := "T" +:+ pretty w; strftime := "T" +:+ pretty w |}, S w);
  subprocess_run cmd _ w := (demo_process cmd, w);
  time_sleep _ w := w;
  builtin_eval expr workflow _ st := (demo_eval expr workflow, st);
  next_thread n _ := (n - 1)%nat;
  can_makedirs _ _ := true;
  can_open _ _ := true;
  py_repr _ := "<container>"
|}.

(** A fresh orchestrator: [ClaudeOrchestrator(debug=False)], nothing
    printed, no file written. *)
Definition fresh : State nat := mkState false [] [] ∅ [] 0%nat.

Definition claude_step (prompt : string) (more : Dict) : Step :=
  mkStep (("type", VStr "claude_code") :: ("prompt", VStr prompt) :: more) [].

(** ** Inputs of the examples *)

(** The failing input of C2: a conditional step whose condition is true and
    whose only nested step is required and fails.  Run by itself the nested
    workflow returns [False]; the enclosing workflow returns [True], after
    having printed the completion line. *)
Definition nested_failure : Workflow :=
  {| wf_name := "outer"; wf_info := [];
     wf_steps := [mkStep [("type", VStr "conditional"); ("condition", VStr "True")]
                         [claude_step "fail" []]] |}.

(** A condition that calls a function on a local variable of
    [execute_workflow]: nothing a caller supplied, and more than
    comparisons and connectives. *)
Definition unchecked_step : Step :=
  mkStep [("type", VStr "conditional");
          ("condition", VStr "len(workflow['steps']) > 0")]
         [claude_step "marker" []].

Definition unchecked_condition : Workflow :=
  {| wf_name := "w"; wf_info := []; wf_steps := [unchecked_step] |}.

(** The first step of the workflow "TDD Feature Development" that
    [create_example_workflows] defines (lines 228-234). *)
Definition analyze_requirements : Step :=
  mkStep [("name", VStr "Analyze Requirements");
          ("type", VStr "claude_code");
          ("prompt", VStr "Analyze the requirements for the new feature. Do NOT write code.");
          ("tools", VList [VStr "READ"]);
          ("think_level", VStr "think hard")] [].

Definition tdd_first_step : Workflow :=
  {| wf_name := "TDD Feature Development"; wf_info := [];
     wf_steps := [analyze_requirements] |}.

(** Three tasks, the second of which fails: the scenario of the
    specification.  On the example platform the threads finish in the
    order 3, 2, 1; the results stand in the order of the tasks. *)
Definition three_tasks : list PyVal :=
  [VDict [("prompt", VStr "a")];
   VDict [("prompt", VStr "fail")];
   VDict [("prompt", VStr "c"); ("tools", VList [VTool READ]);
          ("think_level", VThink THINK)]].

(** A required task whose process exits with status 0 and prints
    nothing. *)
Definition quiet_task : PyVal := VDict [("prompt", VStr "quiet")].

(** One task of the workflow "Parallel Code Analysis" that
    [create_example_workflows] defines (lines 271-275): the tools and the
    think level are strings, as a workflow file holds them. *)
Definition maintainability_task : PyVal :=
  VDict [("prompt", VStr "Analyze code for maintainability");
         ("tools", VList [VStr "READ"]);
         ("think_level", VStr "think")].

(** ** The example workflows and the script (lines 219-303) *)

(** The steps of "TDD Feature Development" after the first one (lines
    235-248). *)
Definition write_tests : Step :=
  mkStep [("name", VStr "Write Tests");
          ("type", VStr "claude_code");
          ("prompt", VStr "Write comprehensive tests based on requirements. No implementation.");
          ("tools", VList [VStr "WRITE"; VStr "EDIT"]);
          ("think_level", VStr "think")] [].

Definition implement_feature : Step :=
  mkStep [("name", VStr "Implement Feature");
          ("type", VStr "claude_code");
          ("prompt", VStr "Implement the feature to make all tests pass.");
          ("tools", VList [VStr "EDIT"; VStr "WRITE"; VStr "READ"; VStr "BASH"]);
          ("think_level", VStr "ultrathink")] [].

Definition tdd_steps : list Step :=
  [analyze_requirements; write_tests; implement_feature].

(** The tasks of "Parallel Code Analysis" before the last one (lines
    261-270), and its two steps (lines 257-284). *)
Definition security_task : PyVal :=
  VDict [("prompt", VStr "Analyze code for security vulnerabilities");
         ("tools", VList [VStr "READ"; VStr "GREP"]);
         ("think_level", VStr "think hard")].

Definition performance_task : PyVal :=
  VDict [("prompt", VStr "Analyze code for performance issues");
         ("tools", VList [VStr "READ"; VStr "GREP"]);
         ("think_level", VStr "think hard")].

Definition parallel_analysis : Step :=
  mkStep [("name", VStr "Parallel Analysis");
          ("type", VStr "parallel");
          ("tasks", VList [security_task; performance_task;
                           maintainability_task])] [].

Definition synthesize_results : Step :=
  mkStep [("name", VStr "Synthesize Results");
          ("type", VStr "claude_code");
          ("prompt", VStr "Synthesize all analysis results into a comprehensive report");
          ("tools", VList [VStr "WRITE"]);
          ("think_level", VStr "think")] [].

Definition parallel_steps : list Step :=
  [parallel_analysis; synthesize_results].

Section Script.
Context {World : Type} (P : Platform World).

(** [create_example_workflows] (lines 220-286) *)
Definition create_example_workflows : M World unit :=
  tdd_workflow <- create_workflow P "TDD Feature Development"
                    "Develop features using Test-Driven Development" tdd_steps;;
  parallel_workflow <- create_workflow P "Parallel Code Analysis"
                         "Analyze code from multiple perspectives simultaneously"
                         parallel_steps;;
  ret tt.

(** [ClaudeOrchestrator(debug)] (lines 43-45): a new object, in the
    surroundings as they are. *)
Definition init (debug : bool) : M World unit := fun st =>
  (Ok tt, mkState debug [] (stdout st) (files st) (calls st) (world st)).

(** The script (lines 288-303). *)
Definition main : M World unit :=
  init true;;;
  create_example_workflows;;;
  result <- run_claude_code P (VStr "Analyze the current directory structure")
              (VList [VTool LS; VTool READ]) (VThink THINK) VNone;;
  save_history P default_history_file.

End Script.

(** A task that gives its tools as a list in which something is not a
    member of an enumeration, as every task read from a workflow file
    does. *)
Definition untyped_tools (task : PyVal) : Prop :=
  exists d prompt tokens,
    task = VDict d /\ dict_lookup d "prompt" = Some prompt
    /\ dict_get d "tools" VNone = VList tokens
    /\ Exists (fun token => py_value token = Raise AttributeError) tokens.

(** The prompt as it is sent: with the think level in front unless the
    level is [NORMAL] (lines 65-66). *)
Definition sent_prompt (level : ThinkLevel) (prompt : string) : string :=
  match level with
  | NORMAL => prompt
  | _ => ThinkLevelM.value level +:+ " " +:+ prompt
  end.

(** The command for a prompt, tools and a level (lines 62-73). *)
Definition command_for (prompt : string) (tools : list ClaudeTool)
    (level : ThinkLevel) : list string :=
  ["claude"; "-p"; sent_prompt level prompt]
  ++ match tools with
     | [] => []
     | _ => "--allowedTools" :: (ClaudeToolM.value <$> tools)
     end.


Definition not_conditional (step : Step) : Prop :=
  eq_str (dict_get (step_fields step) "type" (VStr "claude_code")) "conditional"
  = false.

Section Outcomes.
Context {World : Type} (P : Platform World).

(** How [execute_workflow] ends once the loop has got past the first
    steps: the rest of the loop from the state reached. *)
Definition finish (workflow : Workflow) (i : nat) (rest : list Step)
    (st : State World) : Outcome bool * State World :=
  match for_steps (execute_step P workflow) i rest st with
  | (Ok (Some b), st') => (Ok b, st')
  | (Ok None, st') =>
      (Ok true, logged P ("Workflow completed: " +:+ wf_name workflow) "INFO" st')
  | (Raise e, st') => (Raise e, st')
  end.


End Outcomes.

(** The history has only grown and the files are the same. *)
Definition keeps {World : Type} (st st' : State World) : Prop :=
  workflow_history st `prefix_of` workflow_history st'
  /\ files st' = files st.

(** * Properties *)

Example run_two_steps :
  execute_workflow demo
    {| wf_name := "w"; wf_info := [];
       wf_steps := [claude_step "a" [("tools", VList [VStr "Read"])];
                    claude_step "fail" [("required", VBool false)]] |} fresh
  = (Ok true,
     mkState false
       [{| h_timestamp := "T3"; h_type := "claude_code"; h_prompt := "a";
           h_tools := ["Read"]; h_think_level := ""; h_success := true |}]
       [{| l_timestamp := "T0"; l_level := "INFO"; l_message := "Executing workflow: w" |};
        {| l_timestamp := "T1"; l_level := "INFO"; l_message := "Step 1/2: Unnamed" |};
        {| l_timestamp := "T2"; l_level := "INFO"; l_message := "Running Claude Code: claude -p a..." |};
        {| l_timestamp := "T4"; l_level := "INFO"; l_message := "Step 2/2: Unnamed" |};
        {| l_timestamp := "T5"; l_level := "INFO"; l_message := "Running Claude Code: claude -p fail..." |};
        {| l_timestamp := "T6"; l_level := "ERROR"; l_message := "Error: failed" |};
        {| l_timestamp := "T7"; l_level := "INFO"; l_message := "Workflow completed: w" |}]
       ∅
       [Spawned ["claude"; "-p"; "a"; "--allowedTools"; "Read"] VNone;
        Spawned ["claude"; "-p"; "fail"] VNone]
       8%nat).
Proof. vm_compute. reflexivity. Qed.

Section Properties.
Context {World : Type} (P : Platform World).

Abbreviation St := (State World).

(** ** Computations *)

Lemma log_eq message level st :
  log P message level st = (Ok tt, logged P message level st).
Proof.
  unfold logged, log, bind, datetime_now.
  destruct (clock P (world st)); reflexivity.
Qed.

Lemma logged_history message level st :
  workflow_history (logged P message level st) = workflow_history st.
Proof.
  unfold logged, log, bind, datetime_now.
  destruct (clock P (world st)); reflexivity.
Qed.

Lemma logged_calls message level st :
  calls (logged P message level st) = calls st.
Proof.
  unfold logged, log, bind, datetime_now.
  destruct (clock P (world st)); reflexivity.
Qed.

Lemma logged_files message level st :
  files (logged P message level st) = files st.
Proof.
  unfold logged, log, bind, datetime_now.
  destruct (clock P (world st)); reflexivity.
Qed.

Lemma logged_debug message level st :
  debug (logged P message level st) = debug st.
Proof.
  unfold logged, log, bind, datetime_now.
  destruct (clock P (world st)); reflexivity.
Qed.

Lemma bind_log {B} message level (k : unit -> M World B) st :
  bind (log P message level) k st = k tt (logged P message level st).
Proof. unfold bind. rewrite log_eq. reflexivity. Qed.

Lemma bind_ok {A B} (c : M World A) (k : A -> M World B) st a st' :
  c st = (Ok a, st') -> bind c k st = k a st'.
Proof. intros H. unfold bind. rewrite H. reflexivity. Qed.

Lemma bind_raise {A B} (c : M World A) (k : A -> M World B) st e st' :
  c st = (Raise e, st') -> bind c k st = (Raise e, st').
Proof. intros H. unfold bind. rewrite H. reflexivity. Qed.

Lemma bind_lift_ok {A B} (a : A) (k : A -> M World B) st :
  bind (lift (Ok a)) k st = k a st.
Proof. reflexivity. Qed.

Lemma bind_lift_raise {A B} e (k : A -> M World B) (st : St) :
  bind (lift (Raise e)) k st = (Raise e, st).
Proof. reflexivity. Qed.

(** ** The loop *)

Lemma for_steps_nil body i st :
  for_steps (World := World) body i [] st = (Ok None, st).
Proof. reflexivity. Qed.

Lemma for_steps_cons body i step rest st :
  for_steps (World := World) body i (step :: rest) st =
  match body i step st with
  | (Ok (Some b), st') => (Ok (Some b), st')
  | (Ok None, st') => for_steps body (S i) rest st'
  | (Raise e, st') => (Raise e, st')
  end.
Proof.
  simpl. unfold bind. destruct (body i step st) as [[[b|]|e] st']; reflexivity.
Qed.

(** Running [pre ++ post] is running [pre] and, unless that returned or
    raised, going on with [post]. *)
Lemma for_steps_app body pre post i st :
  for_steps (World := World) body i (pre ++ post) st =
  match for_steps body i pre st with
  | (Ok None, st') => for_steps body (i + length pre) post st'
  | other => other
  end.
Proof.
  revert i st. induction pre as [|step pre IH]; intros i st.
  - rewrite for_steps_nil. simpl. by rewrite Nat.add_0_r.
  - change ((step :: pre) ++ post) with (step :: (pre ++ post)).
    rewrite !for_steps_cons.
    destruct (body i step st) as [[[b|]|e] st']; try reflexivity.
    rewrite IH. simpl length. by rewrite Nat.add_succ_r.
Qed.

Lemma execute_step_eq workflow i step :
  execute_step P workflow i step =
  step_body P (execute_workflow P) workflow i step.
Proof. destruct step; reflexivity. Qed.

Lemma execute_workflow_eq workflow st :
  execute_workflow P workflow st =
  match for_steps (execute_step P workflow) 0 (wf_steps workflow)
          (logged P ("Executing workflow: " +:+ wf_name workflow) "INFO" st) with
  | (Ok (Some b), st') => (Ok b, st')
  | (Ok None, st') =>
      (Ok true, logged P ("Workflow completed: " +:+ wf_name workflow) "INFO" st')
  | (Raise e, st') => (Raise e, st')
  end.
Proof.
  unfold execute_workflow, workflow_run. rewrite bind_log. unfold bind.
  destruct (for_steps _ _ _ _) as [[[b|]|e] st']; try reflexivity.
  rewrite log_eq. reflexivity.
Qed.

Lemma step_body_unrecognised recur workflow i step st :
  unrecognised step ->
  step_body P recur workflow i step st
  = (Ok None, logged P (step_line P workflow i step) "INFO" st).
Proof.
  intros (s & Hty & H1 & H2 & H3 & H4).
  unfold step_body. rewrite bind_log. fold (step_line P workflow i step).
  unfold dict_get. rewrite Hty. unfold eq_str.
  apply String.eqb_neq in H1, H2, H3, H4.
  rewrite H1, H2, H3, H4. reflexivity.
Qed.

Lemma for_steps_unrecognised workflow steps i st :
  Forall unrecognised steps ->
  exists st', for_steps (execute_step P workflow) i steps st = (Ok None, st')
              /\ workflow_history st' = workflow_history st
              /\ calls st' = calls st
              /\ files st' = files st.
Proof.
  intros Hall. revert i st.
  induction Hall as [|step steps Hstep _ IH]; intros i st.
  - exists st. by rewrite for_steps_nil.
  - rewrite for_steps_cons, execute_step_eq.
    rewrite (step_body_unrecognised _ _ _ _ _ Hstep).
    destruct (IH (S i) (logged P (step_line P workflow i step) "INFO" st))
      as (st' & Hrun & Hh & Hc & Hf).
    exists st'. rewrite Hrun, Hh, Hc, Hf.
    by rewrite logged_history, logged_calls, logged_files.
Qed.

Lemma dict_get_type_absent fields k default :
  k <> "type" ->
  dict_get (("type", VStr "claude_code") :: fields) k default
  = dict_get fields k default.
Proof.
  intros Hk. unfold dict_get. cbn [dict_lookup].
  destruct (String.eqb_spec "type" k) as [Heq|_]; [congruence|reflexivity].
Qed.

End Properties.

(** ** Dispatch on the step type *)

Section Dispatch.
Context {World : Type} (P : Platform World).

(** C10.  A step whose ["type"] is a string other than ["claude_code"],
    ["parallel"], ["wait"] and ["conditional"] does nothing but print its
    heading line, and the loop goes on; a workflow made of such steps only
    returns [True] with history, outside calls and files as they were.  A
    step without a ["type"] key runs exactly as the same step with
    ["type": "claude_code"]. *)
Theorem C10_unrecognised_type_is_skipped :
  (forall recur workflow i step st,
      unrecognised step ->
      step_body P recur workflow i step st
      = (Ok None, logged P (step_line P workflow i step) "INFO" st))
  /\ (forall workflow st,
        Forall unrecognised (wf_steps workflow) ->
        exists st', execute_workflow P workflow st = (Ok true, st')
                    /\ workflow_history st' = workflow_history st
                    /\ calls st' = calls st
                    /\ files st' = files st)
  /\ (forall recur workflow i fields nested st,
        dict_lookup fields "type" = None ->
        step_body P recur workflow i (mkStep fields nested) st
        = step_body P recur workflow i
            (mkStep (("type", VStr "claude_code") :: fields) nested) st).
Proof.
  split; [|split].
  - intros. by apply step_body_unrecognised.
  - intros workflow st Hall. rewrite execute_workflow_eq.
    destruct (for_steps_unrecognised P workflow (wf_steps workflow) 0%nat
                (logged P ("Executing workflow: " +:+ wf_name workflow) "INFO" st)
                Hall) as (st' & -> & Hh & Hc & Hf).
    eexists. split; [reflexivity|].
    rewrite !logged_history, !logged_calls, !logged_files, Hh, Hc, Hf.
    by rewrite !logged_history, !logged_calls, !logged_files.
  - intros recur workflow i fields nested st Hnone.
    set (fields' := ("type", VStr "claude_code") :: fields).
    assert (Hget : forall k d, k <> "type" ->
                               dict_get fields' k d = dict_get fields k d)
      by (intros; by apply dict_get_type_absent).
    assert (Hitem : dict_item fields' "prompt" = dict_item fields "prompt")
      by reflexivity.
    assert (Hty' : dict_get fields' "type" (VStr "claude_code")
                   = VStr "claude_code") by reflexivity.
    assert (Hty : dict_get fields "type" (VStr "claude_code")
                  = VStr "claude_code") by (unfold dict_get; by rewrite Hnone).
    unfold step_body, claude_code_call. cbn [step_fields step_nested].
    rewrite Hty, Hty', Hitem.
    rewrite !(Hget "name"), !(Hget "required"), !(Hget "tools"),
      !(Hget "think_level"), !(Hget "timeout") by done.
    reflexivity.
Qed.

End Dispatch.

(** A workflow of two steps of unknown kinds returns [True]. *)
Lemma C10_witness :
  exists st',
    execute_workflow demo
      {| wf_name := "w"; wf_info := [];
         wf_steps := [mkStep [("type", VStr "shell")] [];
                      mkStep [("name", VStr "n"); ("type", VStr "")] []] |} fresh
    = (Ok true, st')
    /\ workflow_history st' = workflow_history fresh
    /\ calls st' = calls fresh
    /\ files st' = files fresh.
Proof.
  apply (proj1 (proj2 (C10_unrecognised_type_is_skipped demo))).
  repeat constructor; eexists; (split; [reflexivity|]); repeat split; discriminate.
Defined.

(** ** Invocations and the history *)

Section Invocation.
Context {World : Type} (P : Platform World).

Lemma announced_history cmd st :
  workflow_history (announced P cmd st) = workflow_history st.
Proof.
  unfold announced. destruct (debug _); by rewrite !logged_history.
Qed.

Lemma announced_calls cmd st : calls (announced P cmd st) = calls st.
Proof.
  unfold announced. destruct (debug _); by rewrite !logged_calls.
Qed.

Lemma announced_files cmd st : files (announced P cmd st) = files st.
Proof.
  unfold announced. destruct (debug _); by rewrite !logged_files.
Qed.

Lemma comprehension_nil {A B} (f : A -> Outcome B) l :
  comprehension f l = Ok [] -> l = [].
Proof.
  destruct l as [|x l]; [done|]. simpl.
  destruct (f x); [|done]. destruct (comprehension f l); done.
Qed.

Lemma announced_debug cmd st : debug (announced P cmd st) = debug st.
Proof.
  unfold announced.
  destruct (debug (logged P _ "INFO" st)); by rewrite !logged_debug.
Qed.

Lemma set_world_history w (st : State World) :
  workflow_history (set_world w st) = workflow_history st.
Proof. reflexivity. Qed.

Lemma launch_spec prompt tool_names think_value cmd timeout st r st' :
  cmd = ["claude"; "-p"; prompt]
        ++ match tool_names with [] => [] | _ => "--allowedTools" :: tool_names end ->
  launch P cmd timeout prompt tool_names think_value st = (r, st') ->
  Invocation P timeout st r st'.
Proof.
  intros Hcmd H. unfold launch in H.
  rewrite bind_log in H.
  assert (Hdbg : forall (k : unit -> M World (option string)) s0,
             bind (fun st => (if debug st
                              then log P ("Full command: " +:+ join " " cmd) "DEBUG"
                              else ret tt) st) k s0
             = k tt (if debug s0
                     then logged P ("Full command: " +:+ join " " cmd) "DEBUG" s0
                     else s0)).
  { intros k s0. unfold bind. destruct (debug s0); [by rewrite log_eq|done]. }
  rewrite Hdbg in H. clear Hdbg.
  fold (announced P cmd st) in H.
  unfold bind at 1 in H. unfold spawn in H.
  destruct (subprocess_run P cmd timeout (world (announced P cmd st)))
    as [result w] eqn:Hrun.
  assert (Hfail : forall m l,
             (forall out err, result <> CompletedProcess 0 out err) ->
             (r, st') = (Ok None, logged P m l
                           (set_world w (record (Spawned cmd timeout)
                                           (announced P cmd st)))) ->
             Invocation P timeout st r st').
  { intros m l Hne [= -> ->]. eapply failed; eauto.
    - by rewrite logged_history, set_world_history; cbn; rewrite announced_history.
    - rewrite logged_files. cbn. by rewrite announced_files.
    - rewrite logged_calls. cbn. by rewrite announced_calls. }
  destruct result as [returncode out err| |message].
  - destruct (returncode =? 0) eqn:Hrc; cbn [negb] in H.
    + apply Z.eqb_eq in Hrc. subst returncode.
      unfold bind, datetime_now, append_history, ret in H. cbn [world set_world] in H.
      destruct (clock P w) as [now w'] eqn:Hclock.
      injection H as <- <-.
      unfold set_history, set_world, record. cbn.
      rewrite announced_history, announced_files, announced_calls.
      rewrite announced_debug. by eapply exited_zero.
    + rewrite bind_log in H. eapply Hfail; [|symmetry; exact H].
      intros out' err' [= -> _ _]. discriminate.
  - rewrite bind_log in H. eapply Hfail; [|symmetry; exact H]. discriminate.
  - rewrite bind_log in H. eapply Hfail; [|symmetry; exact H]. discriminate.
Qed.

Lemma comprehension_value_nonempty items names :
  items <> [] -> comprehension py_value items = Ok names -> names <> [].
Proof.
  intros Hne Hc ->. apply comprehension_nil in Hc. done.
Qed.

Lemma py_iter_truthy v items :
  truthy v = true -> py_iter v = Ok items ->
  forall names, comprehension py_value items = Ok names -> names <> [].
Proof.
  intros Ht Hi names Hc. eapply comprehension_value_nonempty; [|exact Hc].
  destruct v as [| | |s|l|d| |]; simplify_eq/=; try done.
  - by destruct s.
  - by destruct items.
  - by destruct d.
Qed.

Lemma run_claude_code_spec prompt tools think_level timeout st r st' :
  run_claude_code P prompt tools think_level timeout st = (r, st') ->
  Invocation P timeout st r st'.
Proof.
  unfold run_claude_code. intros H.
  destruct (if is_NORMAL think_level then Ok "" else py_value think_level)
    as [think_value|e] eqn:Hv;
    [rewrite bind_lift_ok in H
    |rewrite bind_lift_raise in H; injection H as <- <-; apply not_started].
  destruct (if truthy tools
            then match py_iter tools with
                 | Ok items => comprehension py_value items
                 | Raise e => Raise e
                 end
            else Ok []) as [tool_names|e] eqn:Hnames;
    [rewrite bind_lift_ok in H
    |rewrite bind_lift_raise in H; injection H as <- <-; apply not_started].
  destruct (if is_NORMAL think_level then prompt
            else VStr (think_value +:+ " " +:+ py_str (py_repr P) prompt))
    as [| | |p| | | |] eqn:Hp;
    try (injection H as <- <-; apply not_started).
  eapply launch_spec; [|exact H].
  destruct (truthy tools) eqn:Ht.
  - destruct (py_iter tools) as [items|] eqn:Hi; [|done].
    pose proof (py_iter_truthy _ _ Ht Hi _ Hnames).
    destruct tool_names; done.
  - by injection Hnames as <-.
Qed.

Lemma claude_code_call_spec step st r st' :
  claude_code_call P step st = (r, st') ->
  Invocation P (dict_get step "timeout" VNone) st r st'.
Proof.
  unfold claude_code_call. intros H.
  destruct (dict_item step "prompt") as [prompt|e];
    [rewrite bind_lift_ok in H
    |rewrite bind_lift_raise in H; injection H as <- <-; apply not_started].
  destruct (py_iter (dict_get step "tools" (VList []))) as [tokens|e];
    [rewrite bind_lift_ok in H
    |rewrite bind_lift_raise in H; injection H as <- <-; apply not_started].
  destruct (comprehension ClaudeTool_call tokens) as [tools|e];
    [rewrite bind_lift_ok in H
    |rewrite bind_lift_raise in H; injection H as <- <-; apply not_started].
  destruct (ThinkLevel_call (dict_get step "think_level" (VStr ""))) as [level|e];
    [rewrite bind_lift_ok in H
    |rewrite bind_lift_raise in H; injection H as <- <-; apply not_started].
  by eapply run_claude_code_spec.
Qed.

(** An invocation that returns [None] started a process and left the
    history and the files alone. *)
Lemma Invocation_none timeout st st' :
  Invocation P timeout st (Ok None) st' ->
  workflow_history st' = workflow_history st
  /\ files st' = files st
  /\ exists cmd, calls st' = calls st ++ [Spawned cmd timeout].
Proof. inversion 1; subst. eauto. Qed.

Lemma Invocation_raise timeout st e st' :
  Invocation P timeout st (Raise e) st' -> st' = st.
Proof. by inversion 1. Qed.

Lemma Invocation_some timeout st out st' :
  Invocation P timeout st (Ok (Some out)) st' ->
  exists entry, workflow_history st' = workflow_history st ++ [entry]
                /\ h_type entry = "claude_code" /\ h_success entry = true.
Proof. inversion 1; subst. eexists. split; [reflexivity|done]. Qed.

Lemma Invocation_no_entry timeout st r st' :
  Invocation P timeout st r st' ->
  (forall out, r <> Ok (Some out)) ->
  workflow_history st' = workflow_history st.
Proof.
  intros [e|? ? ? ? out| ] Hr; [done| |done]. by destruct (Hr out).
Qed.

(** C6.  A call of [run_claude_code] is one of three things: it raises
    before any process is started and changes nothing; or the process
    exits with status 0, the output is returned and exactly one entry
    (timestamp, ["claude_code"], prompt, tool names, think level, success)
    is appended to the history; or the process exits with another status,
    times out or cannot be started, [None] is returned and the history is
    as before.  So the history grows, by one entry, exactly when the
    output is returned; and a failed invocation does not keep a later
    successful one from appending its entry. *)
Theorem C6_history_entry_iff_success prompt tools think_level timeout st :
  let r := (run_claude_code P prompt tools think_level timeout st).1 in
  let st' := (run_claude_code P prompt tools think_level timeout st).2 in
  Invocation P timeout st r st'
  /\ ((exists out, r = Ok (Some out)) <->
      (exists entry, workflow_history st' = workflow_history st ++ [entry]))
  /\ ((forall out, r <> Ok (Some out)) <->
      workflow_history st' = workflow_history st)
  /\ (forall prompt2 tools2 think_level2 timeout2 out,
         r = Ok None ->
         (run_claude_code P prompt2 tools2 think_level2 timeout2 st').1
         = Ok (Some out) ->
         exists entry,
           workflow_history
             (run_claude_code P prompt2 tools2 think_level2 timeout2 st').2
           = workflow_history st ++ [entry]).
Proof.
  intros r st'.
  assert (Hinv : Invocation P timeout st r st')
    by (apply (run_claude_code_spec prompt tools think_level); subst r st';
        by destruct (run_claude_code _ _ _ _ _ _)).
  clearbody r st'.
  split; [exact Hinv|]. split; [|split].
  - split.
    + intros [out Hr]. rewrite Hr in Hinv.
      destruct (Invocation_some _ _ _ _ Hinv) as (entry & Hh & _). eauto.
    + intros [entry Hh]. destruct r as [[out|]|e]; eauto.
      * apply Invocation_none in Hinv as (Hh' & _).
        rewrite Hh' in Hh. apply (f_equal length) in Hh.
        rewrite length_app in Hh. simpl in Hh. lia.
      * apply Invocation_raise in Hinv. rewrite Hinv in Hh.
        apply (f_equal length) in Hh. rewrite length_app in Hh. simpl in Hh. lia.
  - split.
    + exact (Invocation_no_entry _ _ _ _ Hinv).
    + intros Hh out Hr. rewrite Hr in Hinv.
      destruct (Invocation_some _ _ _ _ Hinv) as (entry & Hh' & _).
      rewrite Hh in Hh'. apply (f_equal length) in Hh'.
      rewrite length_app in Hh'. simpl in Hh'. lia.
  - intros prompt2 tools2 think_level2 timeout2 out Hr H2.
    rewrite Hr in Hinv. apply Invocation_none in Hinv as (Hh & _).
    destruct (run_claude_code P prompt2 tools2 think_level2 timeout2 st')
      as [r2 st2] eqn:Hrun. simpl in H2. subst r2.
    apply run_claude_code_spec, Invocation_some in Hrun as (entry & Hh2 & _).
    exists entry. simpl. by rewrite Hh2, Hh.
Qed.

End Invocation.

(** A prompt the child process fails on leaves the history empty; the next
    invocation appends its entry. *)
Lemma C6_witness :
  exists entry,
    workflow_history
      (run_claude_code demo (VStr "a") (VList [VTool READ]) (VThink THINK) VNone
         (run_claude_code demo (VStr "fail") VNone (VThink NORMAL) VNone fresh).2).2
    = workflow_history fresh ++ [entry].
Proof.
  apply (proj2 (proj2 (proj2
           (C6_history_entry_iff_success demo (VStr "fail") VNone
              (VThink NORMAL) VNone fresh)))
           (VStr "a") (VList [VTool READ]) (VThink THINK) VNone "ok");
    reflexivity.
Defined.

(** ** Required steps *)

Section FailFast.
Context {World : Type} (P : Platform World).

(** A ["claude_code"] step that is required and whose invocation gives
    nothing makes the loop body return [False]. *)
Lemma step_body_required_failure recur workflow i step st st' :
  eq_str (dict_get (step_fields step) "type" (VStr "claude_code")) "claude_code"
  = true ->
  truthy (dict_get (step_fields step) "required" (VBool true)) = true ->
  claude_code_call P (step_fields step)
    (logged P (step_line P workflow i step) "INFO" st) = (Ok None, st') ->
  step_body P recur workflow i step st
  = (Ok (Some false), logged P (failure_line P step) "ERROR" st').
Proof.
  intros Hty Hreq Hcall. unfold step_body.
  rewrite bind_log. fold (step_line P workflow i step).
  rewrite Hty. rewrite (bind_ok _ _ _ _ _ Hcall).
  rewrite Hreq. cbn [not_result andb].
  rewrite bind_log. reflexivity.
Qed.

(** C1.  Let the steps before position [length pre] run without stopping
    the workflow, and let the step at that position be a ["claude_code"]
    step with a true ["required"] (the default) whose invocation returns
    [None].  Then [execute_workflow] returns [False]; the final state is
    the state the failed invocation left, with the error line added: the
    history is the one the earlier steps built, the last call that left
    the program is the failed one, and nothing of [post] has run. *)
Theorem C1_required_failure_aborts workflow pre step post st st1 st2 :
  wf_steps workflow = pre ++ step :: post ->
  eq_str (dict_get (step_fields step) "type" (VStr "claude_code")) "claude_code"
  = true ->
  truthy (dict_get (step_fields step) "required" (VBool true)) = true ->
  for_steps (execute_step P workflow) 0 pre
    (logged P ("Executing workflow: " +:+ wf_name workflow) "INFO" st)
  = (Ok None, st1) ->
  claude_code_call P (step_fields step)
    (logged P (step_line P workflow (length pre) step) "INFO" st1)
  = (Ok None, st2) ->
  let final := logged P (failure_line P step) "ERROR" st2 in
  execute_workflow P workflow st = (Ok false, final)
  /\ workflow_history final = workflow_history st1
  /\ files final = files st1
  /\ exists cmd timeout, calls final = calls st1 ++ [Spawned cmd timeout].
Proof.
  intros Hsteps Hty Hreq Hpre Hcall final.
  split.
  - rewrite execute_workflow_eq, Hsteps, for_steps_app, Hpre.
    rewrite for_steps_cons, execute_step_eq.
    rewrite Nat.add_0_l.
    by rewrite (step_body_required_failure _ _ _ _ _ _ Hty Hreq Hcall).
  - apply claude_code_call_spec, Invocation_none in Hcall
      as (Hh & Hf & cmd & Hc).
    subst final.
    rewrite logged_history, logged_files, logged_calls, Hh, Hf, Hc.
    rewrite logged_history, logged_files, logged_calls. eauto.
Qed.

End FailFast.

(** Three steps, the second one failing: the third one never runs. *)
Lemma C1_witness :
  (execute_workflow demo
     {| wf_name := "w"; wf_info := [];
        wf_steps := [claude_step "a" []; claude_step "fail" [];
                     claude_step "marker" []] |} fresh).1
  = Ok false.
Proof.
  edestruct (C1_required_failure_aborts demo
               {| wf_name := "w"; wf_info := [];
                  wf_steps := [claude_step "a" []; claude_step "fail" [];
                               claude_step "marker" []] |}
               [claude_step "a" []] (claude_step "fail" [])
               [claude_step "marker" []] fresh) as [H _];
    [reflexivity|reflexivity|reflexivity|vm_compute; reflexivity
    |vm_compute; reflexivity|].
  rewrite H. reflexivity.
Defined.

(** ** Conditional steps *)

Section Conditional.
Context {World : Type} (P : Platform World).

Lemma eq_str_true v k : eq_str v k = true -> v = VStr k.
Proof.
  destruct v; try done. simpl. intros H. by apply String.eqb_eq in H as ->.
Qed.

(** The loop body on a conditional step, spelled out. *)
Lemma step_body_conditional recur workflow i step st :
  dict_get (step_fields step) "type" (VStr "claude_code") = VStr "conditional" ->
  step_body P recur workflow i step st =
  let st1 := logged P (step_line P workflow i step) "INFO" st in
  let condition := dict_get (step_fields step) "condition" VNone in
  if truthy condition then
    match eval P condition workflow i st1 with
    | (Ok value, st2) =>
        if truthy value then
          match recur (sub_workflow workflow step) st2 with
          | (Ok _, st3) => (Ok None, st3)
          | (Raise e, st3) => (Raise e, st3)
          end
        else (Ok None, st2)
    | (Raise e, st2) => (Raise e, st2)
    end
  else (Ok None, st1).
Proof.
  intros Hty. unfold step_body. rewrite bind_log.
  fold (step_line P workflow i step). rewrite Hty. cbn [eq_str].
  change (String.eqb "conditional" "claude_code") with false.
  change (String.eqb "conditional" "parallel") with false.
  change (String.eqb "conditional" "wait") with false.
  change (String.eqb "conditional" "conditional") with true.
  cbv zeta. cbn match.
  destruct (truthy (dict_get (step_fields step) "condition" VNone)); [|done].
  unfold bind.
  destruct (eval P _ workflow i _) as [[value|e] st2]; [|done].
  destruct (truthy value); [|done].
  fold (sub_workflow workflow step).
  by destruct (recur (sub_workflow workflow step) st2) as [[b|e] st3].
Qed.

(** Whatever its nested steps do, a conditional step never makes the
    enclosing loop return: it goes on, or an exception passes through. *)
Lemma conditional_never_returns recur workflow i step st b :
  dict_get (step_fields step) "type" (VStr "claude_code") = VStr "conditional" ->
  (step_body P recur workflow i step st).1 <> Ok (Some b).
Proof.
  intros Hty. rewrite step_body_conditional by done. cbv zeta.
  destruct (truthy _); [|done].
  destruct (eval P _ workflow i _) as [[value|e] st2]; [|done].
  destruct (truthy value); [|done].
  by destruct (recur _ st2) as [[b'|e] st3].
Qed.

End Conditional.

(** C2 (divergence).  A conditional step whose condition is true and whose
    nested step is required and fails: the nested workflow, run as line
    206 runs it, returns [False]; the enclosing workflow nevertheless
    returns [True], and the last line it prints is its completion line.
    The result of the nested workflow is dropped (see
    [conditional_never_returns] for every conditional step). *)
Theorem C2_nested_failure_is_dropped :
  (execute_workflow demo
     (sub_workflow nested_failure
        (mkStep [("type", VStr "conditional"); ("condition", VStr "True")]
                [claude_step "fail" []])) fresh).1 = Ok false
  /\ (execute_workflow demo nested_failure fresh).1 = Ok true
  /\ l_message <$> last (stdout (execute_workflow demo nested_failure fresh).2)
     = Some "Workflow completed: outer".
Proof.
  split; [by vm_compute|]. split; by vm_compute.
Qed.

Section Evaluation.
Context {World : Type} (P : Platform World).

(** C4 (amended).  A condition that is a non-empty string goes to the
    builtin [eval] exactly as written, whatever it contains; the nested
    steps run when the value that comes back is true, they are skipped
    when it is false, and an exception of [eval] leaves
    [execute_workflow].  A step without a condition, or with an empty one,
    is skipped without anything being evaluated. *)
Theorem C4_condition_goes_to_eval_unchecked :
  (forall recur workflow i step st expr,
      dict_get (step_fields step) "type" (VStr "claude_code")
      = VStr "conditional" ->
      dict_get (step_fields step) "condition" VNone = VStr expr ->
      expr <> "" ->
      step_body P recur workflow i step st =
      match builtin_eval P expr workflow i
              (record (Evaluated expr)
                 (logged P (step_line P workflow i step) "INFO" st)) with
      | (Ok value, st2) =>
          if truthy value then
            match recur (sub_workflow workflow step) st2 with
            | (Ok _, st3) => (Ok None, st3)
            | (Raise e, st3) => (Raise e, st3)
            end
          else (Ok None, st2)
      | (Raise e, st2) => (Raise e, st2)
      end)
  /\ (forall recur workflow i step st,
         dict_get (step_fields step) "type" (VStr "claude_code")
         = VStr "conditional" ->
         truthy (dict_get (step_fields step) "condition" VNone) = false ->
         step_body P recur workflow i step st
         = (Ok None, logged P (step_line P workflow i step) "INFO" st)).
Proof.
  split.
  - intros recur workflow i step st expr Hty Hcond Hexpr.
    rewrite step_body_conditional by done. cbv zeta.
    rewrite Hcond. cbn [truthy eval].
    apply String.eqb_neq in Hexpr. rewrite Hexpr. reflexivity.
  - intros recur workflow i step st Hty Hcond.
    rewrite step_body_conditional by done. cbv zeta.
    by rewrite Hcond.
Qed.

End Evaluation.

(** C4 (counterexample).  The condition is evaluated, not rejected, and
    the nested step runs on the strength of it. *)
Lemma C4_counterexample :
  (execute_workflow demo unchecked_condition fresh).1 = Ok true
  /\ calls (execute_workflow demo unchecked_condition fresh).2
     = [Evaluated "len(workflow['steps']) > 0";
        Spawned ["claude"; "-p"; "marker"] VNone]
  /\ h_prompt <$> workflow_history (execute_workflow demo unchecked_condition fresh).2
     = ["marker"].
Proof. by vm_compute. Qed.

(** The step of the counterexample, by the theorem: the value of the
    condition is true, the nested workflow runs and the loop goes on. *)
Lemma C4_witness :
  (step_body demo (execute_workflow demo) unchecked_condition 0
     unchecked_step fresh).1 = Ok None.
Proof.
  rewrite (proj1 (C4_condition_goes_to_eval_unchecked demo)
             (execute_workflow demo) unchecked_condition 0%nat unchecked_step
             fresh "len(workflow['steps']) > 0");
    [by vm_compute|reflexivity|reflexivity|discriminate].
Defined.

(** ** Tool tokens *)

Lemma ClaudeTool_members_all t : In t ClaudeToolM.members.
Proof. destruct t; simpl; tauto. Qed.

Lemma ClaudeTool_of_value_None s :
  ClaudeToolM.of_value s = None <-> forall t, ClaudeToolM.value t <> s.
Proof.
  unfold ClaudeToolM.of_value. split.
  - intros Hnone t Heq.
    pose proof (find_none _ _ Hnone t (ClaudeTool_members_all t)) as Hf.
    simpl in Hf. by apply String.eqb_neq in Hf.
  - intros Hall.
    destruct (List.find _ _) as [t|] eqn:Hfind; [|done].
    apply find_some in Hfind as [_ Heq]. apply String.eqb_eq in Heq.
    by destruct (Hall t).
Qed.

(** [ClaudeTool(token)] raises [ValueError] exactly on unknown tokens. *)
Lemma ClaudeTool_call_unknown token :
  unknown_token token <-> ClaudeTool_call token = Raise ValueError.
Proof.
  split.
  - intros Hun. destruct token as [| | |s| | |t|]; try done.
    + simpl. destruct (ClaudeToolM.of_value s) as [t|] eqn:Hv; [|done].
      apply find_some in Hv as [_ Heq]. apply String.eqb_eq in Heq.
      destruct (Hun t) as [Hne _]. by rewrite Heq in Hne.
    + by destruct (Hun t) as [_ Hne].
  - intros Hcall t. destruct token as [| | |s| | |t'|]; try done.
    simpl in Hcall.
    destruct (ClaudeToolM.of_value s) eqn:Hv; [done|].
    split; [|done]. intros [= ->].
    rewrite ClaudeTool_of_value_None in Hv. by apply (Hv t).
Qed.

Lemma ClaudeTool_call_raise token e :
  ClaudeTool_call token = Raise e -> e = ValueError.
Proof.
  destruct token as [| | |s| | |t|]; simpl; try by intros [= <-].
  by destruct (ClaudeToolM.of_value s); intros [= <-].
Qed.

Lemma comprehension_unknown_token tokens :
  Exists unknown_token tokens ->
  comprehension ClaudeTool_call tokens = Raise ValueError.
Proof.
  induction 1 as [token tokens Hun|token tokens _ IH]; simpl.
  - apply ClaudeTool_call_unknown in Hun. by rewrite Hun.
  - destruct (ClaudeTool_call token) as [t|e] eqn:Hcall.
    + by rewrite IH.
    + by rewrite (ClaudeTool_call_raise _ _ Hcall).
Qed.

Section Tokens.
Context {World : Type} (P : Platform World).

Lemma claude_code_call_unknown step st prompt tokens :
  dict_lookup step "prompt" = Some prompt ->
  dict_get step "tools" (VList []) = VList tokens ->
  Exists unknown_token tokens ->
  claude_code_call P step st = (Raise ValueError, st).
Proof.
  intros Hprompt Htools Hun.
  unfold claude_code_call, dict_item. rewrite Hprompt. cbv iota.
  rewrite bind_lift_ok, Htools. cbn [py_iter]. rewrite bind_lift_ok.
  by rewrite (comprehension_unknown_token _ Hun).
Qed.

(** C8 (amended).  Let the steps before it run without stopping the
    workflow, and let a ["claude_code"] step have a prompt and a list of
    tools with an unknown token in it.  Then [execute_workflow] raises
    [ValueError] and returns nothing; the state is the one in which the
    step started, with its heading line printed: no process was started
    and the history is as it was. *)
Theorem C8_unknown_tool_raises workflow pre step post st st1 prompt tokens :
  wf_steps workflow = pre ++ step :: post ->
  dict_get (step_fields step) "type" (VStr "claude_code") = VStr "claude_code" ->
  dict_lookup (step_fields step) "prompt" = Some prompt ->
  dict_get (step_fields step) "tools" (VList []) = VList tokens ->
  Exists unknown_token tokens ->
  for_steps (execute_step P workflow) 0 pre
    (logged P ("Executing workflow: " +:+ wf_name workflow) "INFO" st)
  = (Ok None, st1) ->
  let final := logged P (step_line P workflow (length pre) step) "INFO" st1 in
  execute_workflow P workflow st = (Raise ValueError, final)
  /\ workflow_history final = workflow_history st1
  /\ calls final = calls st1.
Proof.
  intros Hsteps Hty Hprompt Htools Hun Hpre final.
  split; [|by subst final; rewrite logged_history, logged_calls].
  rewrite execute_workflow_eq, Hsteps, for_steps_app, Hpre.
  rewrite for_steps_cons, execute_step_eq, Nat.add_0_l.
  unfold step_body. rewrite bind_log. fold (step_line P workflow (length pre) step).
  rewrite Hty. cbn [eq_str].
  change (String.eqb "claude_code" "claude_code") with true. cbv iota.
  by rewrite (bind_raise _ _ _ _ _
                (claude_code_call_unknown _ _ _ _ Hprompt Htools Hun)).
Qed.

End Tokens.

(** C8 (counterexample).  ["READ"] is the name of a member, not its value
    (which is ["Read"]): [execute_workflow] raises and produces no
    boolean. *)
Lemma C8_counterexample :
  (execute_workflow demo tdd_first_step fresh).1 = Raise ValueError
  /\ calls (execute_workflow demo tdd_first_step fresh).2 = [].
Proof. by vm_compute. Qed.

Lemma C8_witness :
  (execute_workflow demo tdd_first_step fresh).1 = Raise ValueError.
Proof.
  edestruct (C8_unknown_tool_raises demo tdd_first_step [] analyze_requirements
               [] fresh) as [H _];
    [reflexivity|reflexivity|reflexivity|reflexivity| |reflexivity|].
  - apply Exists_cons_hd. intros t. split; [|done]. by destruct t.
  - by rewrite H.
Defined.

(** ** Storage *)

Section Storage.
Context {World : Type} (P : Platform World).

Lemma dump_to_ok path encodable doc st st' :
  dump_to P path encodable doc st = (Ok tt, st') ->
  can_open P path (world st) = true /\ encodable = true
  /\ st' = set_files (<[path := doc]> (files st)) (record (Written path) st).
Proof.
  unfold dump_to. destruct (can_open P path (world st)); [|done].
  destruct encodable; [|done]. by intros [= <-].
Qed.

Lemma dump_to_run path doc st :
  can_open P path (world st) = true ->
  dump_to P path true doc st
  = (Ok tt, set_files (<[path := doc]> (files st)) (record (Written path) st)).
Proof. intros H. unfold dump_to. by rewrite H. Qed.

Lemma dump_to_closed path encodable doc st :
  can_open P path (world st) = false ->
  dump_to P path encodable doc st = (Raise OSError, st).
Proof. intros H. unfold dump_to. by rewrite H. Qed.

(** A save that returns has put the history under the name, and that is
    all it did to the files. *)
Lemma save_history_ok filename st st' :
  save_history P filename st = (Ok tt, st') ->
  files st' = <[filename := HistoryFile (workflow_history st)]> (files st)
  /\ workflow_history st' = workflow_history st.
Proof.
  unfold save_history, bind. intros H.
  destruct (dump_to P filename true _ st) as [[[]|e] st0] eqn:Hdump; [|done].
  apply dump_to_ok in Hdump as (_ & _ & ->).
  rewrite log_eq in H. injection H as <-.
  by rewrite logged_files, logged_history.
Qed.

(** C9.  Two saves in a row under one name, both going through, leave
    under that name what a single save of the same history leaves from
    any other state of the file system, namely the history itself once;
    the second save changes no file. *)
Theorem C9_save_history_twice filename st st1 st2 other other' :
  save_history P filename st = (Ok tt, st1) ->
  save_history P filename st1 = (Ok tt, st2) ->
  workflow_history other = workflow_history st ->
  save_history P filename other = (Ok tt, other') ->
  files st2 !! filename = files other' !! filename
  /\ files st2 !! filename = Some (HistoryFile (workflow_history st))
  /\ files st2 = files st1.
Proof.
  intros H1 H2 Hsame H3.
  apply save_history_ok in H1 as [Hf1 Hh1].
  apply save_history_ok in H2 as [Hf2 Hh2].
  apply save_history_ok in H3 as [Hf3 _].
  rewrite Hf2, Hh1, Hf1, Hf3, Hsame, insert_insert_eq.
  by rewrite !lookup_insert_eq.
Qed.

Lemma create_workflow_run name description steps st :
  let now := (clock P (world st)).1 in
  let w := (clock P (world st)).2 in
  let workflow := definition_of name description now steps in
  can_makedirs P "workflows" w = true ->
  can_open P (workflow_file name) w = true ->
  forallb step_json_ok steps = true ->
  exists st',
    create_workflow P name description steps st = (Ok workflow, st')
    /\ files st' = <[workflow_file name := WorkflowFile workflow]> (files st).
Proof.
  intros now w workflow Hdir Hopen Hjson. subst now w workflow.
  unfold create_workflow, bind at 1, datetime_now.
  destruct (clock P (world st)) as [now w] eqn:Hclock. cbn [fst snd] in *.
  unfold bind at 1, makedirs. cbn [world set_world]. rewrite Hdir.
  unfold bind at 1. rewrite Hjson, dump_to_run by done.
  rewrite bind_log. eexists. split; [reflexivity|].
  by rewrite logged_files.
Qed.

(** C3 (amended).  [create_workflow] checks nothing about the name or the
    steps.  Whenever the directory can be made, the file can be opened and
    the steps hold values [json.dump] can encode, it writes the definition
    under the key of the name and returns it; and when the directory
    cannot be made or the file cannot be opened it raises [OSError] and
    leaves the files as they were. *)
Theorem C3_create_workflow_checks_nothing name description steps st :
  let now := (clock P (world st)).1 in
  let w := (clock P (world st)).2 in
  let workflow := definition_of name description now steps in
  (can_makedirs P "workflows" w = true ->
   can_open P (workflow_file name) w = true ->
   forallb step_json_ok steps = true ->
   exists st',
     create_workflow P name description steps st = (Ok workflow, st')
     /\ files st' !! workflow_file name = Some (WorkflowFile workflow))
  /\ (can_makedirs P "workflows" w && can_open P (workflow_file name) w = false ->
      exists st',
        create_workflow P name description steps st = (Raise OSError, st')
        /\ files st' = files st).
Proof.
  intros now w workflow. split.
  - intros Hdir Hopen Hjson.
    destruct (create_workflow_run name description steps st Hdir Hopen Hjson)
      as (st' & Hrun & Hfiles).
    exists st'. split; [exact Hrun|]. by rewrite Hfiles, lookup_insert_eq.
  - subst now w workflow. intros Hclosed.
    unfold create_workflow, bind at 1, datetime_now.
    destruct (clock P (world st)) as [now w] eqn:Hclock. cbn [fst snd] in *.
    unfold bind at 1, makedirs. cbn [world set_world].
    destruct (can_makedirs P "workflows" w); [|by eexists].
    unfold bind at 1. rewrite dump_to_closed by done. by eexists.
Qed.

(** C7.  When the storage takes the file and the steps hold values
    [json.dump] can encode, creating a workflow and loading it by the same
    name succeeds and gives back the workflow that was created, with the
    same steps in the same order. *)
Theorem C7_create_then_load name description steps st :
  let w := (clock P (world st)).2 in
  can_makedirs P "workflows" w = true ->
  can_open P (workflow_file name) w = true ->
  forallb step_json_ok steps = true ->
  exists workflow st',
    create_workflow P name description steps st = (Ok workflow, st')
    /\ load_workflow name st' = (Ok workflow, st')
    /\ wf_steps workflow = steps
    /\ wf_name workflow = name.
Proof.
  intros w Hdir Hopen Hjson.
  destruct (create_workflow_run name description steps st Hdir Hopen Hjson)
    as (st' & Hrun & Hfiles).
  eexists _, st'. split; [exact Hrun|].
  unfold load_workflow. rewrite Hfiles, lookup_insert_eq. done.
Qed.

End Storage.

(** C3 (counterexample).  An empty step sequence, an empty name, a step
    with an empty prompt, a wait of minus five seconds and a conditional
    step with no nested steps are all written to storage. *)
Lemma C3_counterexample :
  files (create_workflow demo "Empty" "no steps" [] fresh).2
    !! "workflows/empty.json"
  = Some (WorkflowFile (definition_of "Empty" "no steps"
                          {| isoformat := "T0"; strftime := "T0" |} []))
  /\ is_Some (files (create_workflow demo "" "no name" [claude_step "a" []] fresh).2
                !! "workflows/.json")
  /\ is_Some (files (create_workflow demo "No Prompt" "" [claude_step "" []] fresh).2
                !! "workflows/no-prompt.json")
  /\ is_Some (files (create_workflow demo "Wait" ""
                       [mkStep [("type", VStr "wait"); ("seconds", VInt (-5))] []]
                       fresh).2
                !! "workflows/wait.json")
  /\ is_Some (files (create_workflow demo "Branch" ""
                       [mkStep [("type", VStr "conditional");
                                ("condition", VStr "True")] []]
                       fresh).2
                !! "workflows/branch.json").
Proof.
  split; [by vm_compute|].
  repeat split; by vm_compute; eexists.
Qed.

Lemma C3_witness :
  exists st',
    create_workflow demo "Empty" "no steps" [] fresh
    = (Ok (definition_of "Empty" "no steps"
             {| isoformat := "T0"; strftime := "T0" |} []), st')
    /\ files st' !! workflow_file "Empty"
       = Some (WorkflowFile (definition_of "Empty" "no steps"
                               {| isoformat := "T0"; strftime := "T0" |} [])).
Proof.
  apply (proj1 (C3_create_workflow_checks_nothing demo "Empty" "no steps" []
                  fresh)); reflexivity.
Defined.

(** The second workflow of [create_example_workflows], shortened to its
    last step, comes back from storage as it went in. *)
Lemma C7_witness :
  exists workflow st',
    create_workflow demo "Parallel Code Analysis" "Analyze code"
      [claude_step "Synthesize all analysis results"
         [("tools", VList [VStr "WRITE"]); ("think_level", VStr "think")]] fresh
    = (Ok workflow, st')
    /\ load_workflow "Parallel Code Analysis" st' = (Ok workflow, st')
    /\ wf_steps workflow
       = [claude_step "Synthesize all analysis results"
            [("tools", VList [VStr "WRITE"]); ("think_level", VStr "think")]]
    /\ wf_name workflow = "Parallel Code Analysis".
Proof.
  apply (C7_create_then_load demo); reflexivity.
Defined.

(** The history after one successful invocation, saved twice and saved
    once. *)
Lemma C9_witness :
  let st := (run_claude_code demo (VStr "a") VNone (VThink NORMAL) VNone fresh).2 in
  let st1 := (save_history demo default_history_file st).2 in
  let st2 := (save_history demo default_history_file st1).2 in
  let other := (save_history demo default_history_file
                  (set_history (workflow_history st) fresh)).2 in
  files st2 !! default_history_file = files other !! default_history_file
  /\ files st2 !! default_history_file = Some (HistoryFile (workflow_history st))
  /\ files st2 = files st1.
Proof.
  intros st st1 st2 other.
  apply (C9_save_history_twice demo default_history_file st st1 st2
           (set_history (workflow_history st) fresh) other); reflexivity.
Defined.

(** ** Parallel steps *)

Section Parallel.
Context {World : Type} (P : Platform World).

Lemma launch_returns cmd timeout prompt tool_names think_value st :
  exists r st',
    launch P cmd timeout prompt tool_names think_value st = (Ok r, st').
Proof.
  unfold launch. rewrite bind_log. unfold bind at 1.
  set (st1 := logged P _ "INFO" st).
  assert (exists st2,
             (if debug st1
              then log P ("Full command: " +:+ join " " cmd) "DEBUG"
              else ret tt) st1 = (Ok tt, st2)) as [st2 ->].
  { destruct (debug st1); [rewrite log_eq|]; by eexists. }
  unfold bind at 1, spawn.
  destruct (subprocess_run P cmd timeout (world st2)) as [result w].
  destruct result as [returncode out err| |message]; try (rewrite bind_log; eauto).
  destruct (negb (returncode =? 0)); [rewrite bind_log; eauto|].
  unfold bind, datetime_now, append_history, ret. cbn [world set_world].
  destruct (clock P w) as [now w']. eauto.
Qed.

Lemma comprehension_tools items :
  forallb is_tool items = true ->
  exists names, comprehension py_value items = Ok names.
Proof.
  induction items as [|v items IH]; [by eexists|].
  simpl. intros [Hv Hrest]%andb_prop.
  destruct v; try done. destruct (IH Hrest) as [names ->]. by eexists.
Qed.

(** A typed task gets as far as its process: [run_task] returns. *)
Lemma run_task_returns task st :
  typed_task task = true ->
  exists r st', run_task P task st = (Ok r, st').
Proof.
  destruct task as [| | | | |d| |]; try done.
  intros [[Hprompt Htools]%andb_prop Hthink]%andb_prop.
  unfold run_task. cbn [py_item py_get]. unfold dict_item.
  destruct (dict_lookup d "prompt") as [[| | |prompt| | | |]|]; try done.
  rewrite !bind_lift_ok.
  destruct (dict_get d "think_level" (VThink NORMAL)) as [| | | | | | |level];
    try done.
  unfold run_claude_code.
  assert (exists names,
             (if truthy (dict_get d "tools" VNone)
              then match py_iter (dict_get d "tools" VNone) with
                   | Ok items => comprehension py_value items
                   | Raise e => Raise e
                   end
              else Ok []) = Ok names) as [names Hnames].
  { destruct (dict_get d "tools" VNone) as [| | | |items| | |]; try done.
    - by eexists.
    - destruct (truthy (VList items)); [|by eexists].
      by apply comprehension_tools. }
  rewrite Hnames.
  destruct level; cbn [is_NORMAL py_value]; rewrite !bind_lift_ok;
    apply launch_returns.
Qed.

(** The gathering: every pending task leaves its result at its own
    position, and no other position changes. *)
Lemma gather_spec n : forall pending results st,
  length pending = n ->
  NoDup pending.*1 ->
  (forall i task, (i, task) ∈ pending ->
                  (i < length results)%nat /\ typed_task task = true) ->
  exists res st',
    gather P n pending results st = (Ok res, st')
    /\ length res = length results
    /\ (forall i task, (i, task) ∈ pending ->
          exists r s s', res !! i = Some r /\ run_task P task s = (Ok r, s'))
    /\ (forall j, j ∉ pending.*1 -> res !! j = results !! j).
Proof.
  induction n as [|n IH]; intros pending results st Hlen Hnodup Hall.
  - destruct pending; [|done]. exists results, st.
    split; [done|]. split; [done|]. split; [|done].
    intros i task Hin. by apply elem_of_nil in Hin.
  - cbn [gather].
    set (k := (next_thread P (length pending) (world st) `mod` length pending)%nat).
    assert (Hk : (k < length pending)%nat)
      by (apply Nat.mod_upper_bound; lia).
    destruct (lookup_lt_is_Some_2 _ _ Hk) as [[i task] Hlookup].
    rewrite Hlookup.
    pose proof (delete_Permutation _ _ _ Hlookup) as Hperm.
    assert (Hin : (i, task) ∈ pending) by (rewrite Hperm; left).
    destruct (Hall i task Hin) as [Hi Htyped].
    destruct (run_task_returns task st Htyped) as (r & st1 & Hrun).
    rewrite (bind_ok _ _ _ _ _ Hrun).
    assert (Hnodup' : NoDup (i :: (delete k pending).*1))
      by (rewrite Hperm in Hnodup; exact Hnodup).
    apply NoDup_cons in Hnodup' as [Hfresh Hnodup'].
    destruct (IH (delete k pending) (<[i := r]> results) st1)
      as (res & st' & Hgather & Hreslen & Hmine & Hothers).
    + rewrite length_delete by eauto. lia.
    + exact Hnodup'.
    + intros j t Hjt. rewrite length_insert. apply Hall.
      rewrite Hperm. by right.
    + exists res, st'. split; [exact Hgather|].
      split; [by rewrite Hreslen, length_insert|]. split.
      * intros j t Hjt. rewrite Hperm in Hjt.
        apply elem_of_cons in Hjt as [[= -> ->]|Hjt]; [|by apply Hmine].
        exists r, st, st1. split; [|exact Hrun].
        rewrite (Hothers _ Hfresh). by apply list_lookup_insert_eq.
      * intros j Hj. rewrite Hperm in Hj. cbn [fmap list_fmap fst] in Hj.
        apply not_elem_of_cons in Hj as [Hne Hj].
        rewrite (Hothers _ Hj). by apply list_lookup_insert_ne.
Qed.

Lemma run_parallel_tasks_spec tasks items st :
  py_iter tasks = Ok items ->
  Forall (fun task => typed_task task = true) items ->
  exists results st',
    run_parallel_tasks P tasks st = (Ok results, st')
    /\ length results = length items
    /\ (forall i task, items !! i = Some task ->
          exists r s s', results !! i = Some r
                         /\ run_task P task s = (Ok r, s')).
Proof.
  intros Hiter Htyped. unfold run_parallel_tasks.
  rewrite Hiter, bind_lift_ok, bind_log.
  edestruct (gather_spec (length items) (imap pair items)
               (replicate (length items) None))
    as (results & st' & Hgather & Hlen & Hmine & _).
  - apply length_imap.
  - rewrite fmap_imap.
    rewrite (imap_ext _ (fun j _ => id j)) by done.
    rewrite imap_seq_0, list_fmap_id. apply NoDup_seq.
  - intros i task (i' & task' & [= -> ->] & Hlookup)%elem_of_lookup_imap_1.
    rewrite length_replicate. split.
    + by eapply lookup_lt_Some.
    + by eapply (Forall_lookup_1 _ _ _ _ Htyped).
  - exists results, st'. split; [exact Hgather|].
    split; [by rewrite Hlen, length_replicate|].
    intros i task Hlookup. apply Hmine.
    by apply (elem_of_lookup_imap_2 pair).
Qed.

Lemma check_parallel_result pairs : forall j st,
  Forall (fun pair => typed_task pair.1 = true) pairs ->
  (check_parallel P j pairs st).1
  = Ok (if existsb failed_required pairs then Some false else None).
Proof.
  induction pairs as [|[task result] pairs IH]; intros j st Htyped; [done|].
  apply Forall_cons in Htyped as [Htask Htyped].
  destruct task as [| | | | |d| |]; try done.
  cbn [check_parallel existsb]. unfold failed_required at 1. cbn [fst snd required].
  destruct (not_result result); cbn [andb orb]; [|by apply IH].
  cbn [py_get]. rewrite bind_lift_ok.
  destruct (truthy (dict_get d "required" (VBool true))); cbn [orb];
    [by rewrite bind_log|by apply IH].
Qed.

Lemma failed_required_lookup items results :
  existsb failed_required (zip items results) = true <->
  exists k task r, items !! k = Some task /\ results !! k = Some r
                   /\ not_result r = true /\ required task = true.
Proof.
  rewrite existsb_exists. split.
  - intros ([task r] & Hin & [Hr Hreq]%andb_prop).
    apply list_elem_of_In, list_elem_of_lookup in Hin as [k Hk].
    apply lookup_zip_with_Some in Hk as (task' & r' & [= <- <-] & Ht & Hr').
    by exists k, task, r.
  - intros (k & task & r & Ht & Hr & Hnot & Hreq).
    exists (task, r). split.
    + apply list_elem_of_In, list_elem_of_lookup. exists k.
      apply lookup_zip_with_Some. by exists task, r.
    + unfold failed_required. cbn [fst snd]. by rewrite Hnot, Hreq.
Qed.

(** The loop body on a parallel step whose tasks are typed. *)
Lemma step_body_parallel recur workflow i step st items :
  dict_get (step_fields step) "type" (VStr "claude_code") = VStr "parallel" ->
  py_iter (dict_get (step_fields step) "tasks" (VList [])) = Ok items ->
  Forall (fun task => typed_task task = true) items ->
  exists results st1,
    run_parallel_tasks P (dict_get (step_fields step) "tasks" (VList []))
      (logged P (step_line P workflow i step) "INFO" st) = (Ok results, st1)
    /\ length results = length items
    /\ (step_body P recur workflow i step st).1
       = Ok (if existsb failed_required (zip items results)
             then Some false else None).
Proof.
  intros Hty Hiter Htyped.
  destruct (run_parallel_tasks_spec _ _
              (logged P (step_line P workflow i step) "INFO" st) Hiter Htyped)
    as (results & st1 & Hrun & Hlen & _).
  exists results, st1. split; [exact Hrun|]. split; [exact Hlen|].
  unfold step_body. rewrite bind_log. fold (step_line P workflow i step).
  rewrite Hty. cbn [eq_str].
  change (String.eqb "parallel" "claude_code") with false.
  change (String.eqb "parallel" "parallel") with true. cbv iota.
  rewrite (bind_ok _ _ _ _ _ Hrun), Hiter, bind_lift_ok.
  apply check_parallel_result.
  apply Forall_forall. intros [task r] Hin%elem_of_zip_l.
  by eapply (proj1 (Forall_forall _ _) Htyped).
Qed.

(** C5 (amended).  For tasks that are typed as [run_claude_code] wants
    them, [run_parallel_tasks] returns, whatever the order in which the
    threads finish, as many results as there are tasks, and the result at
    each position is what the run of the task at that position returned,
    be it [None].  The parallel step makes the workflow return [False]
    exactly when, for some task whose ["required"] is true (the default),
    that result is [None] or the empty string; otherwise the loop goes
    on. *)
Theorem C5_parallel_results_aligned :
  (forall tasks items st,
      py_iter tasks = Ok items ->
      Forall (fun task => typed_task task = true) items ->
      exists results st',
        run_parallel_tasks P tasks st = (Ok results, st')
        /\ length results = length items
        /\ (forall i task, items !! i = Some task ->
              exists r s s', results !! i = Some r
                             /\ run_task P task s = (Ok r, s')))
  /\ (forall recur workflow i step st items,
         dict_get (step_fields step) "type" (VStr "claude_code")
         = VStr "parallel" ->
         py_iter (dict_get (step_fields step) "tasks" (VList [])) = Ok items ->
         Forall (fun task => typed_task task = true) items ->
         exists results st1,
           run_parallel_tasks P (dict_get (step_fields step) "tasks" (VList []))
             (logged P (step_line P workflow i step) "INFO" st)
           = (Ok results, st1)
           /\ ((step_body P recur workflow i step st).1 = Ok (Some false) <->
               exists k task r,
                 items !! k = Some task /\ results !! k = Some r
                 /\ not_result r = true /\ required task = true)
           /\ ((step_body P recur workflow i step st).1 = Ok (Some false)
               \/ (step_body P recur workflow i step st).1 = Ok None))
  /\ (forall workflow pre step post st st1,
         wf_steps workflow = pre ++ step :: post ->
         for_steps (execute_step P workflow) 0 pre
           (logged P ("Executing workflow: " +:+ wf_name workflow) "INFO" st)
         = (Ok None, st1) ->
         (step_body P (execute_workflow P) workflow (length pre) step st1).1
         = Ok (Some false) ->
         (execute_workflow P workflow st).1 = Ok false).
Proof.
  split; [exact run_parallel_tasks_spec|]. split.
  - intros recur workflow i step st items Hty Hiter Htyped.
    destruct (step_body_parallel recur workflow i step st items Hty Hiter Htyped)
      as (results & st1 & Hrun & _ & Hbody).
    exists results, st1. split; [exact Hrun|].
    rewrite Hbody, <- failed_required_lookup.
    destruct (existsb failed_required (zip items results)).
    + split; [done|by left].
    + split; [|by right]. split; [by intros [=]|done].
  - intros workflow pre step post st st1 Hsteps Hpre Hbody.
    rewrite execute_workflow_eq, Hsteps, for_steps_app, Hpre.
    rewrite for_steps_cons, execute_step_eq, Nat.add_0_l.
    destruct (step_body P (execute_workflow P) workflow (length pre) step st1)
      as [[[b|]|e] st2]; simplify_eq/=. done.
Qed.

End Parallel.

Example three_tasks_results :
  (run_parallel_tasks demo (VList three_tasks) fresh).1
  = Ok [Some "ok"; None; Some "ok"]
  /\ h_prompt <$> workflow_history (run_parallel_tasks demo (VList three_tasks) fresh).2
     = ["think c"; "a"]
  /\ (execute_workflow demo
        {| wf_name := "w"; wf_info := [];
           wf_steps := [mkStep [("type", VStr "parallel");
                                ("tasks", VList three_tasks)] []] |} fresh).1
     = Ok false.
Proof. by vm_compute. Qed.

Lemma C5_witness :
  exists results st',
    run_parallel_tasks demo (VList three_tasks) fresh = (Ok results, st')
    /\ length results = length three_tasks
    /\ (forall i task, three_tasks !! i = Some task ->
          exists r s s', results !! i = Some r
                         /\ run_task demo task s = (Ok r, s')).
Proof.
  apply (proj1 (C5_parallel_results_aligned demo));
    [reflexivity|by repeat constructor].
Defined.

(** C5 (counterexample).  The quiet task produces a result, the empty
    output, and its invocation is entered in the history as a success;
    still the parallel step makes the workflow return [False].  And on
    the task of the example workflow [run_parallel_tasks] returns no
    results at all: [.value] of a string raises [AttributeError]. *)
Lemma C5_counterexample :
  (run_parallel_tasks demo (VList [quiet_task]) fresh).1 = Ok [Some ""]
  /\ h_success <$> workflow_history (run_parallel_tasks demo (VList [quiet_task]) fresh).2
     = [true]
  /\ (execute_workflow demo
        {| wf_name := "w"; wf_info := [];
           wf_steps := [mkStep [("type", VStr "parallel");
                                ("tasks", VList [quiet_task])] []] |} fresh).1
     = Ok false
  /\ (run_parallel_tasks demo (VList [maintainability_task]) fresh).1
     = Raise AttributeError.
Proof. by vm_compute. Qed.

(** * Further properties *)

(** ** The enumerations *)

(** X1.  Looking a member up by its value gives the member back, for both
    enumerations, and within an enumeration no two members share a
    value. *)
Theorem enum_value_round_trip :
  (forall t, ClaudeTool_call (VStr (ClaudeToolM.value t)) = Ok t)
  /\ (forall t, ThinkLevel_call (VStr (ThinkLevelM.value t)) = Ok t)
  /\ NoDup (ClaudeToolM.value <$> ClaudeToolM.members)
  /\ NoDup (ThinkLevelM.value <$> ThinkLevelM.members).
Proof.
  split; [by intros []|]. split; [by intros []|].
  split; apply (bool_decide_unpack _); by vm_compute.
Qed.

(** X2.  The constructors look values up, not names: the name of a tool is
    refused with [ValueError] unless it is ["LS"], the one name that is
    also a value, and no name of a think level is accepted. *)
Theorem enum_names_are_not_values :
  (forall t, ClaudeTool_call (VStr (ClaudeToolM.name t))
             = match t with LS => Ok LS | _ => Raise ValueError end)
  /\ (forall t, ThinkLevel_call (VStr (ThinkLevelM.name t)) = Raise ValueError).
Proof. split; by intros []. Qed.

(** ** More about [run_claude_code] *)

Section Command.
Context {World : Type} (P : Platform World).

(** What [launch] does, whichever way the process ends. *)
Lemma launch_effects cmd timeout prompt tool_names think_value st :
  exists r st',
    launch P cmd timeout prompt tool_names think_value st = (Ok r, st')
    /\ calls st' = calls st ++ [Spawned cmd timeout]
    /\ files st' = files st
    /\ debug st' = debug st
    /\ match r with
       | Some out =>
           exists now,
             workflow_history st'
             = workflow_history st
               ++ [{| h_timestamp := now; h_type := "claude_code";
                      h_prompt := prompt; h_tools := tool_names;
                      h_think_level := think_value; h_success := true |}]
       | None => workflow_history st' = workflow_history st
       end.
Proof.
  unfold launch. rewrite bind_log. unfold bind at 1.
  set (st1 := logged P _ "INFO" st).
  assert (exists st2,
             (if debug st1
              then log P ("Full command: " +:+ join " " cmd) "DEBUG"
              else ret tt) st1 = (Ok tt, st2)
             /\ calls st2 = calls st /\ files st2 = files st
             /\ debug st2 = debug st
             /\ workflow_history st2 = workflow_history st)
    as (st2 & -> & Hc & Hf & Hd & Hh).
  { destruct (debug st1); [rewrite log_eq|]; eexists; (split; [reflexivity|]);
      subst st1;
      by rewrite ?logged_calls, ?logged_files, ?logged_debug, ?logged_history. }
  unfold bind at 1, spawn.
  destruct (subprocess_run P cmd timeout (world st2)) as [result w].
  assert (Hnone : forall m l,
             exists r st',
               (Ok (None : option string),
                logged P m l (set_world w (record (Spawned cmd timeout) st2)))
               = (Ok r, st')
               /\ calls st' = calls st ++ [Spawned cmd timeout]
               /\ files st' = files st
               /\ debug st' = debug st
               /\ match r with
                  | Some out =>
                      exists now,
                        workflow_history st'
                        = workflow_history st
                          ++ [{| h_timestamp := now; h_type := "claude_code";
                                 h_prompt := prompt; h_tools := tool_names;
                                 h_think_level := think_value;
                                 h_success := true |}]
                  | None => workflow_history st' = workflow_history st
                  end).
  { intros m l. eexists _, _. split; [reflexivity|].
    rewrite logged_calls, logged_files, logged_debug, logged_history. cbn.
    by rewrite Hc, Hf, Hd, Hh. }
  destruct result as [returncode out err| |message];
    try (rewrite bind_log; apply Hnone).
  destruct (negb (returncode =? 0)); [rewrite bind_log; apply Hnone|].
  unfold bind, datetime_now, append_history, ret. cbn [world set_world].
  destruct (clock P w) as [now w'].
  eexists _, _. split; [reflexivity|]. cbn.
  rewrite Hc, Hf, Hd, Hh. repeat split. by eexists.
Qed.

(** Called as its annotations say, [run_claude_code] builds the command
    and goes on to [launch]. *)
Lemma run_claude_code_typed prompt tools level timeout st :
  run_claude_code P (VStr prompt) (VList (VTool <$> tools)) (VThink level)
    timeout st
  = launch P (command_for prompt tools level) timeout (sent_prompt level prompt)
      (ClaudeToolM.value <$> tools) (ThinkLevelM.value level) st.
Proof.
  unfold run_claude_code.
  assert (Hnames : comprehension py_value (VTool <$> tools)
                   = Ok (ClaudeToolM.value <$> tools)).
  { induction tools as [|t tools IH]; [done|]. cbn. by rewrite IH. }
  assert (Htools : (if truthy (VList (VTool <$> tools))
                    then match py_iter (VList (VTool <$> tools)) with
                         | Ok items => comprehension py_value items
                         | Raise e => Raise e
                         end
                    else Ok []) = Ok (ClaudeToolM.value <$> tools)).
  { cbn [py_iter]. rewrite Hnames. by destruct tools. }
  rewrite Htools.
  assert (Hcmd : forall p,
             ["claude"; "-p"; p]
             ++ (if truthy (VList (VTool <$> tools))
                 then "--allowedTools" :: (ClaudeToolM.value <$> tools)
                 else [])
             = ["claude"; "-p"; p]
               ++ match tools with
                  | [] => []
                  | _ => "--allowedTools" :: (ClaudeToolM.value <$> tools)
                  end) by (by destruct tools).
  destruct level; cbn [is_NORMAL py_value py_str]; rewrite !bind_lift_ok;
    by rewrite Hcmd.
Qed.

(** X3.  Called with a string, a list of tools and a think level,
    [run_claude_code] starts exactly one process, whatever becomes of it:
    [claude -p] and the prompt, with the value of the think level and a
    space in front of the prompt unless the level is [NORMAL], followed,
    when the list of tools is not empty, by [--allowedTools] and the values
    of the tools in order. *)
Theorem run_claude_code_command prompt tools level timeout st :
  calls (run_claude_code P (VStr prompt) (VList (VTool <$> tools))
           (VThink level) timeout st).2
  = calls st ++ [Spawned (command_for prompt tools level) timeout].
Proof.
  rewrite run_claude_code_typed.
  destruct (launch_effects (command_for prompt tools level) timeout
              (sent_prompt level prompt) (ClaudeToolM.value <$> tools)
              (ThinkLevelM.value level) st) as (r & st' & -> & Hcalls & _).
  exact Hcalls.
Qed.

(** X4.  [run_claude_code] raises only while it builds the command, before
    anything is printed or started: when it raises, the exception is
    [AttributeError] or [TypeError] and the state is the one it was called
    in.  What goes wrong with the process itself never comes out as an
    exception. *)
Theorem run_claude_code_raises_early prompt tools think_level timeout st e :
  (run_claude_code P prompt tools think_level timeout st).1 = Raise e ->
  (run_claude_code P prompt tools think_level timeout st).2 = st
  /\ (e = AttributeError \/ e = TypeError).
Proof.
  unfold run_claude_code.
  assert (Hvalue : forall v e', py_value v = Raise e' -> e' = AttributeError)
    by (intros [] e'; simpl; congruence).
  assert (Hcomp : forall items e',
             comprehension py_value items = Raise e' -> e' = AttributeError).
  { induction items as [|v items IH]; intros e'; [done|]. simpl.
    destruct (py_value v) eqn:Hv; [|intros [= <-]; by eapply Hvalue].
    destruct (comprehension py_value items); [done|].
    intros [= <-]. by apply IH. }
  destruct (if is_NORMAL think_level then Ok "" else py_value think_level)
    as [think_value|e'] eqn:Hv.
  - rewrite bind_lift_ok.
    destruct (if truthy tools
              then match py_iter tools with
                   | Ok items => comprehension py_value items
                   | Raise e => Raise e
                   end
              else Ok []) as [tool_names|e'] eqn:Hnames.
    + rewrite bind_lift_ok.
      destruct (if is_NORMAL think_level then prompt
                else VStr (think_value +:+ " " +:+ py_str (py_repr P) prompt))
        as [| | |p| | | |];
        try (cbn; intros [= <-]; by auto).
      match goal with
      | |- context [launch P ?c ?t ?p ?n ?v st] =>
          destruct (launch_effects c t p n v st) as (r & st' & -> & _)
      end. done.
    + rewrite bind_lift_raise. cbn. intros [= <-]. split; [done|].
      destruct (truthy tools); [|done].
      destruct (py_iter tools) as [items|] eqn:Hi.
      * left. by eapply Hcomp.
      * right. destruct tools; simplify_eq/=; done.
  - rewrite bind_lift_raise. cbn. intros [= <-]. split; [done|]. left.
    destruct (is_NORMAL think_level); [done|]. by eapply Hvalue.
Qed.

(** X5.  When [run_claude_code], called with a string, tools and a think
    level, returns an output, the entry it has appended records the prompt
    as it was sent, think level in front, the values of the tools and the
    value of the think level, with [success] true. *)
Theorem run_claude_code_entry prompt tools level timeout st out :
  (run_claude_code P (VStr prompt) (VList (VTool <$> tools)) (VThink level)
     timeout st).1 = Ok (Some out) ->
  exists now,
    workflow_history
      (run_claude_code P (VStr prompt) (VList (VTool <$> tools)) (VThink level)
         timeout st).2
    = workflow_history st
      ++ [{| h_timestamp := now; h_type := "claude_code";
             h_prompt := sent_prompt level prompt;
             h_tools := ClaudeToolM.value <$> tools;
             h_think_level := ThinkLevelM.value level;
             h_success := true |}].
Proof.
  rewrite run_claude_code_typed.
  destruct (launch_effects (command_for prompt tools level) timeout
              (sent_prompt level prompt) (ClaudeToolM.value <$> tools)
              (ThinkLevelM.value level) st)
    as (r & st' & -> & _ & _ & _ & Hh).
  cbn [fst snd]. intros [= ->]. exact Hh.
Qed.

End Command.

Lemma run_claude_code_raises_early_witness :
  (run_claude_code demo (VStr "a") (VList [VStr "Read"]) (VThink NORMAL) VNone
     fresh).2 = fresh
  /\ (AttributeError = AttributeError \/ AttributeError = TypeError).
Proof.
  apply (run_claude_code_raises_early demo (VStr "a") (VList [VStr "Read"])
           (VThink NORMAL) VNone fresh AttributeError).
  reflexivity.
Defined.

Lemma run_claude_code_entry_witness :
  exists now,
    workflow_history
      (run_claude_code demo (VStr "a") (VList (VTool <$> [LS; READ]))
         (VThink THINK_HARD) VNone fresh).2
    = workflow_history fresh
      ++ [{| h_timestamp := now; h_type := "claude_code";
             h_prompt := sent_prompt THINK_HARD "a";
             h_tools := ClaudeToolM.value <$> [LS; READ];
             h_think_level := ThinkLevelM.value THINK_HARD;
             h_success := true |}].
Proof.
  apply (run_claude_code_entry demo "a" [LS; READ] THINK_HARD VNone fresh "ok").
  reflexivity.
Defined.

(** ** More about the steps of a workflow *)

Section Steps.
Context {World : Type} (P : Platform World).

Lemma execute_workflow_split workflow pre step post st st1 :
  wf_steps workflow = pre ++ step :: post ->
  for_steps (execute_step P workflow) 0 pre
    (logged P ("Executing workflow: " +:+ wf_name workflow) "INFO" st)
  = (Ok None, st1) ->
  execute_workflow P workflow st =
  match step_body P (execute_workflow P) workflow (length pre) step st1 with
  | (Ok (Some b), st') => (Ok b, st')
  | (Ok None, st') => finish P workflow (S (length pre)) post st'
  | (Raise e, st') => (Raise e, st')
  end.
Proof.
  intros Hsteps Hpre.
  rewrite execute_workflow_eq, Hsteps, for_steps_app, Hpre.
  rewrite for_steps_cons, execute_step_eq, Nat.add_0_l. unfold finish.
  by destruct (step_body _ _ _ _ _ _) as [[[b|]|e] st'].
Qed.

Lemma step_body_claude_code recur workflow i step st r st' :
  dict_get (step_fields step) "type" (VStr "claude_code") = VStr "claude_code" ->
  claude_code_call P (step_fields step)
    (logged P (step_line P workflow i step) "INFO" st) = (Ok r, st') ->
  step_body P recur workflow i step st =
  if not_result r && truthy (dict_get (step_fields step) "required" (VBool true))
  then (Ok (Some false), logged P (failure_line P step) "ERROR" st')
  else (Ok None, st').
Proof.
  intros Hty Hcall. unfold step_body.
  rewrite bind_log. fold (step_line P workflow i step).
  rewrite Hty. cbn [eq_str].
  change (String.eqb "claude_code" "claude_code") with true. cbv iota.
  rewrite (bind_ok _ _ _ _ _ Hcall).
  destruct (not_result r && truthy _); [|done].
  by rewrite bind_log.
Qed.

(** X6.  A ["claude_code"] step whose ["required"] is false never stops the
    workflow, whatever its invocation returns: after it the loop goes on
    with the steps that follow, from the state the invocation left. *)
Theorem optional_step_goes_on workflow pre step post st st1 r st2 :
  wf_steps workflow = pre ++ step :: post ->
  dict_get (step_fields step) "type" (VStr "claude_code") = VStr "claude_code" ->
  truthy (dict_get (step_fields step) "required" (VBool true)) = false ->
  for_steps (execute_step P workflow) 0 pre
    (logged P ("Executing workflow: " +:+ wf_name workflow) "INFO" st)
  = (Ok None, st1) ->
  claude_code_call P (step_fields step)
    (logged P (step_line P workflow (length pre) step) "INFO" st1)
  = (Ok r, st2) ->
  execute_workflow P workflow st = finish P workflow (S (length pre)) post st2.
Proof.
  intros Hsteps Hty Hreq Hpre Hcall.
  rewrite (execute_workflow_split _ _ _ _ _ _ Hsteps Hpre).
  rewrite (step_body_claude_code _ _ _ _ _ _ _ Hty Hcall), Hreq.
  by rewrite andb_false_r.
Qed.

(** X7.  The test of line 176 is [not result]: a required step whose
    process exits with status 0 and prints nothing stops the workflow with
    [False] like a failed one, although its invocation has been entered in
    the history as a success. *)
Theorem empty_output_stops_workflow workflow pre step post st st1 st2 :
  wf_steps workflow = pre ++ step :: post ->
  dict_get (step_fields step) "type" (VStr "claude_code") = VStr "claude_code" ->
  truthy (dict_get (step_fields step) "required" (VBool true)) = true ->
  for_steps (execute_step P workflow) 0 pre
    (logged P ("Executing workflow: " +:+ wf_name workflow) "INFO" st)
  = (Ok None, st1) ->
  claude_code_call P (step_fields step)
    (logged P (step_line P workflow (length pre) step) "INFO" st1)
  = (Ok (Some ""), st2) ->
  let final := logged P (failure_line P step) "ERROR" st2 in
  execute_workflow P workflow st = (Ok false, final)
  /\ exists entry,
       workflow_history final = workflow_history st1 ++ [entry]
       /\ h_success entry = true.
Proof.
  intros Hsteps Hty Hreq Hpre Hcall final. split.
  - rewrite (execute_workflow_split _ _ _ _ _ _ Hsteps Hpre).
    by rewrite (step_body_claude_code _ _ _ _ _ _ _ Hty Hcall), Hreq.
  - apply claude_code_call_spec, Invocation_some in Hcall
      as (entry & Hh & _ & Hs).
    exists entry. subst final.
    by rewrite logged_history, Hh, logged_history.
Qed.



(** X9.  A ["claude_code"] step without a ["prompt"] raises [KeyError], and
    one whose think level is a string that is the value of no member
    raises [ValueError] (its tools being known); in both cases only the
    heading line of the step has been printed, and no process started. *)
Theorem malformed_step_raises recur workflow i step st :
  dict_get (step_fields step) "type" (VStr "claude_code") = VStr "claude_code" ->
  (dict_lookup (step_fields step) "prompt" = None ->
   step_body P recur workflow i step st
   = (Raise (KeyError "prompt"), logged P (step_line P workflow i step) "INFO" st))
  /\ (forall prompt tokens tools level,
         dict_lookup (step_fields step) "prompt" = Some prompt ->
         dict_get (step_fields step) "tools" (VList []) = VList tokens ->
         comprehension ClaudeTool_call tokens = Ok tools ->
         dict_get (step_fields step) "think_level" (VStr "") = VStr level ->
         ThinkLevelM.of_value level = None ->
         step_body P recur workflow i step st
         = (Raise ValueError, logged P (step_line P workflow i step) "INFO" st)).
Proof.
  intros Hty. split.
  - intros Hprompt. unfold step_body. rewrite bind_log.
    fold (step_line P workflow i step). rewrite Hty. cbn [eq_str].
    change (String.eqb "claude_code" "claude_code") with true. cbv iota.
    assert (Hcall : forall s, claude_code_call P (step_fields step) s
                              = (Raise (KeyError "prompt"), s)).
    { intros s. unfold claude_code_call, dict_item. by rewrite Hprompt. }
    by rewrite (bind_raise _ _ _ _ _ (Hcall _)).
  - intros prompt tokens tools level Hprompt Htools Hknown Hlevel Hnone.
    unfold step_body. rewrite bind_log.
    fold (step_line P workflow i step). rewrite Hty. cbn [eq_str].
    change (String.eqb "claude_code" "claude_code") with true. cbv iota.
    assert (Hcall : forall s, claude_code_call P (step_fields step) s
                              = (Raise ValueError, s)).
    { intros s. unfold claude_code_call, dict_item. rewrite Hprompt. cbv iota.
      rewrite bind_lift_ok, Htools. cbn [py_iter].
      rewrite bind_lift_ok, Hknown, bind_lift_ok, Hlevel.
      cbn [ThinkLevel_call]. by rewrite Hnone. }
    by rewrite (bind_raise _ _ _ _ _ (Hcall _)).
Qed.

End Steps.

Lemma optional_step_goes_on_witness :
  (execute_workflow demo
     {| wf_name := "w"; wf_info := [];
        wf_steps := [claude_step "fail" [("required", VBool false)];
                     claude_step "a" []] |} fresh).1 = Ok true.
Proof.
  erewrite (optional_step_goes_on demo
              {| wf_name := "w"; wf_info := [];
                 wf_steps := [claude_step "fail" [("required", VBool false)];
                              claude_step "a" []] |}
              [] (claude_step "fail" [("required", VBool false)])
              [claude_step "a" []] fresh); cycle 1;
    [reflexivity|reflexivity|reflexivity|reflexivity
    |vm_compute; reflexivity|].
  by vm_compute.
Defined.

Lemma empty_output_stops_workflow_witness :
  (execute_workflow demo
     {| wf_name := "w"; wf_info := [];
        wf_steps := [claude_step "quiet" []; claude_step "a" []] |} fresh).1
  = Ok false.
Proof.
  edestruct (empty_output_stops_workflow demo
               {| wf_name := "w"; wf_info := [];
                  wf_steps := [claude_step "quiet" []; claude_step "a" []] |}
               [] (claude_step "quiet" []) [claude_step "a" []] fresh)
    as [H _];
    [reflexivity|reflexivity|reflexivity|reflexivity
    |vm_compute; reflexivity|].
  by rewrite H.
Defined.


Lemma malformed_step_raises_witness :
  step_body demo (execute_workflow demo)
    {| wf_name := "w"; wf_info := []; wf_steps := [] |} 0
    (mkStep [("name", VStr "no prompt")] []) fresh
  = (Raise (KeyError "prompt"),
     logged demo
       (step_line demo {| wf_name := "w"; wf_info := []; wf_steps := [] |} 0
          (mkStep [("name", VStr "no prompt")] [])) "INFO" fresh).
Proof.
  apply (proj1 (malformed_step_raises demo (execute_workflow demo)
                  {| wf_name := "w"; wf_info := []; wf_steps := [] |} 0%nat
                  (mkStep [("name", VStr "no prompt")] []) fresh eq_refl)).
  reflexivity.
Defined.

(** ** What running a workflow keeps *)

Section Keeps.
Context {World : Type} (P : Platform World).

Lemma keeps_refl (st : State World) : keeps st st.
Proof. by split. Qed.

Lemma keeps_trans (st1 st2 st3 : State World) :
  keeps st1 st2 -> keeps st2 st3 -> keeps st1 st3.
Proof.
  intros [Hh1 Hf1] [Hh2 Hf2]. split; [by etrans|congruence].
Qed.

Lemma keeps_logged message level st : keeps st (logged P message level st).
Proof. split; [by rewrite logged_history|by rewrite logged_files]. Qed.

Lemma Invocation_keeps timeout st r st' :
  Invocation P timeout st r st' -> keeps st st'.
Proof.
  intros [e|? ? ? ? out| ? ? ? ? ? ? Hh Hf ?].
  - apply keeps_refl.
  - split; [by apply prefix_app_r|done].
  - split; [by rewrite Hh|done].
Qed.

Lemma run_task_spec task st r st' :
  run_task P task st = (r, st') ->
  exists timeout, Invocation P timeout st r st'.
Proof.
  unfold run_task. intros H.
  destruct (py_item task "prompt") as [prompt|e];
    [rewrite bind_lift_ok in H
    |rewrite bind_lift_raise in H; injection H as <- <-; exists VNone;
     apply not_started].
  destruct (py_get task "tools" VNone) as [tools|e];
    [rewrite bind_lift_ok in H
    |rewrite bind_lift_raise in H; injection H as <- <-; exists VNone;
     apply not_started].
  destruct (py_get task "think_level" (VThink NORMAL)) as [level|e];
    [rewrite bind_lift_ok in H
    |rewrite bind_lift_raise in H; injection H as <- <-; exists VNone;
     apply not_started].
  destruct (py_get task "timeout" VNone) as [timeout|e];
    [rewrite bind_lift_ok in H
    |rewrite bind_lift_raise in H; injection H as <- <-; exists VNone;
     apply not_started].
  exists timeout. by eapply run_claude_code_spec.
Qed.

Lemma gather_keeps n : forall pending results st r st',
  gather P n pending results st = (r, st') -> keeps st st'.
Proof.
  induction n as [|n IH]; intros pending results st r st'; cbn [gather].
  - intros [= <- <-]. apply keeps_refl.
  - destruct (pending !! _) as [[i task]|]; [|intros [= <- <-]; apply keeps_refl].
    unfold bind. destruct (run_task P task st) as [[result|e] st1] eqn:Hrun.
    + intros Hrest. apply run_task_spec in Hrun as [timeout Hinv].
      eapply keeps_trans; [by eapply Invocation_keeps|by eapply IH].
    + intros [= <- <-]. apply run_task_spec in Hrun as [timeout Hinv].
      by eapply Invocation_keeps.
Qed.

Lemma run_parallel_tasks_keeps tasks st r st' :
  run_parallel_tasks P tasks st = (r, st') -> keeps st st'.
Proof.
  unfold run_parallel_tasks.
  destruct (py_iter tasks) as [items|e];
    [rewrite bind_lift_ok, bind_log
    |rewrite bind_lift_raise; intros [= <- <-]; apply keeps_refl].
  intros H. eapply keeps_trans; [apply keeps_logged|by eapply gather_keeps].
Qed.

Lemma check_parallel_keeps pairs : forall j st r st',
  check_parallel P j pairs st = (r, st') -> keeps st st'.
Proof.
  induction pairs as [|[task result] pairs IH]; intros j st r st';
    cbn [check_parallel].
  - intros [= <- <-]. apply keeps_refl.
  - destruct (not_result result); [|by apply IH].
    destruct (py_get task "required" (VBool true)) as [v|e];
      [rewrite bind_lift_ok
      |rewrite bind_lift_raise; intros [= <- <-]; apply keeps_refl].
    destruct (truthy v); [|by apply IH].
    rewrite bind_log. intros [= <- <-]. apply keeps_logged.
Qed.

Lemma step_body_keeps recur workflow i step st r st' :
  not_conditional step ->
  step_body P recur workflow i step st = (r, st') -> keeps st st'.
Proof.
  unfold not_conditional, step_body. intros Hnot. rewrite bind_log.
  fold (step_line P workflow i step).
  set (st0 := logged P (step_line P workflow i step) "INFO" st).
  assert (H0 : keeps st st0) by apply keeps_logged.
  destruct (eq_str _ "claude_code").
  { unfold bind at 1.
    destruct (claude_code_call P (step_fields step) st0)
      as [[result|e] st1] eqn:Hcall;
      apply claude_code_call_spec, Invocation_keeps in Hcall.
    - destruct (not_result result && truthy _).
      + rewrite bind_log. intros [= <- <-].
        eapply keeps_trans; [exact H0|].
        eapply keeps_trans; [exact Hcall|apply keeps_logged].
      + intros [= <- <-]. by eapply keeps_trans.
    - intros [= <- <-]. by eapply keeps_trans. }
  destruct (eq_str _ "parallel").
  { unfold bind at 1.
    destruct (run_parallel_tasks P _ st0) as [[results|e] st1] eqn:Hrun;
      apply run_parallel_tasks_keeps in Hrun.
    - destruct (py_iter _) as [tasks|e];
        [rewrite bind_lift_ok
        |rewrite bind_lift_raise; intros [= <- <-]; by eapply keeps_trans].
      intros Hcheck%check_parallel_keeps.
      eapply keeps_trans; [exact H0|]. by eapply keeps_trans.
    - intros [= <- <-]. by eapply keeps_trans. }
  destruct (eq_str _ "wait").
  { rewrite bind_log.
    destruct (sleep_seconds _) as [n|e];
      [rewrite bind_lift_ok
      |rewrite bind_lift_raise; intros [= <- <-];
       eapply keeps_trans; [exact H0|apply keeps_logged]].
    intros [= <- <-].
    eapply keeps_trans; [exact H0|].
    split; cbn; [by rewrite logged_history|by rewrite logged_files]. }
  rewrite Hnot. by intros [= <- <-].
Qed.

Lemma for_steps_keeps workflow steps : forall i st r st',
  Forall not_conditional steps ->
  for_steps (execute_step P workflow) i steps st = (r, st') -> keeps st st'.
Proof.
  induction steps as [|step steps IH]; intros i st r st' Hall.
  - rewrite for_steps_nil. intros [= <- <-]. apply keeps_refl.
  - apply Forall_cons in Hall as [Hstep Hall].
    rewrite for_steps_cons, execute_step_eq.
    destruct (step_body P (execute_workflow P) workflow i step st)
      as [[[b|]|e] st1] eqn:Hbody;
      apply (step_body_keeps _ _ _ _ _ _ _ Hstep) in Hbody.
    + by intros [= <- <-].
    + intros Hrest. eapply keeps_trans; [exact Hbody|by eapply IH].
    + by intros [= <- <-].
Qed.

(** X10.  Running a workflow that has no conditional step, whether it
    returns [True], returns [False] or raises, takes nothing away from
    the history (what was there is the beginning of what is there
    afterwards) and leaves the stored files as they were. *)
Theorem workflow_keeps_history_and_files workflow st :
  Forall not_conditional (wf_steps workflow) ->
  workflow_history st
    `prefix_of` workflow_history (execute_workflow P workflow st).2
  /\ files (execute_workflow P workflow st).2 = files st.
Proof.
  intros Hall. rewrite execute_workflow_eq.
  destruct (for_steps _ _ _ _) as [[[b|]|e] st'] eqn:Hloop;
    apply (for_steps_keeps _ _ _ _ _ _ Hall) in Hloop; cbn [snd].
  - eapply keeps_trans; [apply keeps_logged|exact Hloop].
  - eapply keeps_trans; [apply keeps_logged|].
    eapply keeps_trans; [exact Hloop|apply keeps_logged].
  - eapply keeps_trans; [apply keeps_logged|exact Hloop].
Qed.

(** ** More about parallel tasks *)

Lemma Invocation_ok_calls timeout st r st' :
  Invocation P timeout st (Ok r) st' ->
  exists cmd, calls st' = calls st ++ [Spawned cmd timeout].
Proof. inversion 1; subst; eauto. Qed.

Lemma gather_starts_all n : forall pending results st,
  length pending = n ->
  (forall i task, (i, task) ∈ pending -> typed_task task = true) ->
  exists res st' started,
    gather P n pending results st = (Ok res, st')
    /\ calls st' = calls st ++ started
    /\ length started = n
    /\ Forall (fun e => exists cmd timeout, e = Spawned cmd timeout) started.
Proof.
  induction n as [|n IH]; intros pending results st Hlen Hall.
  - exists results, st, []. by rewrite app_nil_r.
  - cbn [gather].
    set (k := (next_thread P (length pending) (world st) `mod` length pending)%nat).
    assert (Hk : (k < length pending)%nat) by (apply Nat.mod_upper_bound; lia).
    destruct (lookup_lt_is_Some_2 _ _ Hk) as [[i task] Hlookup].
    rewrite Hlookup.
    pose proof (delete_Permutation _ _ _ Hlookup) as Hperm.
    assert (Htyped : typed_task task = true)
      by (apply (Hall i); rewrite Hperm; left).
    destruct (run_task_returns P task st Htyped) as (r & st1 & Hrun).
    rewrite (bind_ok _ _ _ _ _ Hrun).
    apply run_task_spec in Hrun as [timeout Hinv].
    apply Invocation_ok_calls in Hinv as [cmd Hcalls].
    destruct (IH (delete k pending) (<[i := r]> results) st1)
      as (res & st' & started & Hgather & Hc & Hl & Hs).
    + rewrite length_delete by eauto. lia.
    + intros j t Hjt. apply (Hall j). rewrite Hperm. by right.
    + exists res, st', (Spawned cmd timeout :: started).
      split; [exact Hgather|]. split; [|split].
      * by rewrite Hc, Hcalls, <- app_assoc.
      * cbn. by rewrite Hl.
      * apply Forall_cons. eauto.
Qed.

(** X12.  For typed tasks [run_parallel_tasks] starts one process for
    every task, neither more nor fewer, whatever the processes started
    before returned: a task that fails stops none of the others. *)
Theorem parallel_starts_every_task tasks items st :
  py_iter tasks = Ok items ->
  Forall (fun task => typed_task task = true) items ->
  exists started,
    calls (run_parallel_tasks P tasks st).2 = calls st ++ started
    /\ length started = length items
    /\ Forall (fun e => exists cmd timeout, e = Spawned cmd timeout) started.
Proof.
  intros Hiter Htyped. unfold run_parallel_tasks.
  rewrite Hiter, bind_lift_ok, bind_log.
  edestruct (gather_starts_all (length items) (imap pair items)
               (replicate (length items) None))
    as (res & st' & started & -> & Hc & Hl & Hs).
  - apply length_imap.
  - intros i task (i' & task' & [= -> ->] & Hlookup)%elem_of_lookup_imap_1.
    by eapply (Forall_lookup_1 _ _ _ _ Htyped).
  - exists started. cbn [snd]. by rewrite Hc, logged_calls.
Qed.

Lemma run_task_untyped_tools task st :
  untyped_tools task -> run_task P task st = (Raise AttributeError, st).
Proof.
  intros (d & prompt & tokens & -> & Hprompt & Htools & Hsome).
  unfold run_task. cbn [py_item py_get]. unfold dict_item.
  rewrite Hprompt, !bind_lift_ok, Htools.
  unfold run_claude_code.
  assert (Hvalue : forall v e, py_value v = Raise e -> e = AttributeError)
    by (intros [] e; simpl; congruence).
  destruct (if is_NORMAL (dict_get d "think_level" (VThink NORMAL))
            then Ok ""
            else py_value (dict_get d "think_level" (VThink NORMAL)))
    as [think_value|e] eqn:Hv.
  - rewrite bind_lift_ok.
    assert (Htruthy : truthy (VList tokens) = true)
      by (by destruct Hsome).
    rewrite Htruthy. cbn [py_iter].
    assert (Hcomp : comprehension py_value tokens = Raise AttributeError).
    { clear Htools Htruthy.
      induction Hsome as [token tokens Hraise|token tokens _ IH]; cbn.
      - by rewrite Hraise.
      - destruct (py_value token) eqn:Ht; [by rewrite IH|].
        by rewrite (Hvalue _ _ Ht). }
    by rewrite Hcomp.
  - rewrite bind_lift_raise.
    destruct (is_NORMAL _); [done|]. by rewrite (Hvalue _ _ Hv).
Qed.

(** When every task of a list that is not empty raises, whatever the
    state, so does [run_parallel_tasks], at the first task the platform
    lets run. *)
Lemma run_parallel_tasks_all_raise items st e :
  items <> [] ->
  (forall task, task ∈ items -> forall s, run_task P task s = (Raise e, s)) ->
  run_parallel_tasks P (VList items) st
  = (Raise e,
     logged P ("Running " +:+ pretty (length items) +:+ " tasks in parallel...")
       "INFO" st).
Proof.
  intros Hne Hall. unfold run_parallel_tasks. cbn [py_iter].
  rewrite bind_lift_ok, bind_log.
  destruct items as [|task0 items0] eqn:Hitems; [done|]. rewrite <- Hitems in *.
  assert (Hlen : length items = S (length items0)) by (by rewrite Hitems).
  rewrite Hlen at 1. cbn [gather].
  set (pending := imap pair items).
  set (st1 := logged P _ "INFO" st).
  set (k := (next_thread P (length pending) (world st1) `mod` length pending)%nat).
  assert (Hk : (k < length pending)%nat).
  { apply Nat.mod_upper_bound. subst pending. rewrite length_imap. lia. }
  destruct (lookup_lt_is_Some_2 _ _ Hk) as [[i task] Hlookup].
  rewrite Hlookup.
  assert (Hin : (i, task) ∈ pending) by (by eapply list_elem_of_lookup_2).
  apply elem_of_lookup_imap_1 in Hin as (i' & task' & [= -> ->] & Hi).
  apply list_elem_of_lookup_2 in Hi.
  by rewrite (bind_raise _ _ _ _ _ (Hall _ Hi st1)).
Qed.

(** X11.  [run_parallel_tasks] hands the tools of a task to
    [run_claude_code] as they are.  When every task of a list that is not
    empty gives its tools as a list in which something is not a member of
    an enumeration, a string say, the call raises [AttributeError] after
    its first line, and no process has been started. *)
Theorem parallel_untyped_tools_raise items st :
  items <> [] ->
  Forall untyped_tools items ->
  (run_parallel_tasks P (VList items) st).1 = Raise AttributeError
  /\ calls (run_parallel_tasks P (VList items) st).2 = calls st
  /\ workflow_history (run_parallel_tasks P (VList items) st).2
     = workflow_history st.
Proof.
  intros Hne Hall.
  rewrite (run_parallel_tasks_all_raise items st AttributeError Hne).
  - cbn [fst snd]. by rewrite logged_calls, logged_history.
  - intros task Hin s. apply run_task_untyped_tools.
    by apply (proj1 (Forall_forall _ _) Hall).
Qed.

End Keeps.

Lemma workflow_keeps_history_and_files_witness :
  workflow_history fresh
    `prefix_of` workflow_history
                  (execute_workflow demo
                     {| wf_name := "w"; wf_info := [];
                        wf_steps := [claude_step "a" [];
                                     mkStep [("type", VStr "wait")] [];
                                     mkStep [("type", VStr "parallel");
                                             ("tasks", VList three_tasks)] []] |}
                     fresh).2
  /\ files (execute_workflow demo
              {| wf_name := "w"; wf_info := [];
                 wf_steps := [claude_step "a" [];
                              mkStep [("type", VStr "wait")] [];
                              mkStep [("type", VStr "parallel");
                                      ("tasks", VList three_tasks)] []] |}
              fresh).2 = files fresh.
Proof.
  apply (workflow_keeps_history_and_files demo). by repeat constructor.
Defined.

Lemma parallel_starts_every_task_witness :
  exists started,
    calls (run_parallel_tasks demo (VList three_tasks) fresh).2
    = calls fresh ++ started
    /\ length started = length three_tasks
    /\ Forall (fun e => exists cmd timeout, e = Spawned cmd timeout) started.
Proof.
  apply (parallel_starts_every_task demo (VList three_tasks) three_tasks fresh);
    [reflexivity|by repeat constructor].
Defined.

Lemma parallel_untyped_tools_raise_witness :
  (run_parallel_tasks demo
     (VList [security_task; performance_task; maintainability_task]) fresh).1
  = Raise AttributeError
  /\ calls (run_parallel_tasks demo
              (VList [security_task; performance_task; maintainability_task])
              fresh).2 = calls fresh
  /\ workflow_history
       (run_parallel_tasks demo
          (VList [security_task; performance_task; maintainability_task])
          fresh).2 = workflow_history fresh.
Proof.
  apply (parallel_untyped_tools_raise demo); [discriminate|].
  repeat constructor; eexists _, _, _;
    (split; [reflexivity|]); (split; [reflexivity|]); (split; [reflexivity|]);
    by apply Exists_cons_hd.
Defined.

(** ** More about storage *)




Section MoreStorage.
Context {World : Type} (P : Platform World).

(** Whichever way [create_workflow] ends, and what it leaves when it
    returns. *)
Lemma create_workflow_effects name description steps st r st' :
  create_workflow P name description steps st = (r, st') ->
  workflow_history st' = workflow_history st
  /\ (forall path, path <> workflow_file name ->
                   files st' !! path = files st !! path)
  /\ (forall workflow,
         r = Ok workflow ->
         files st' = <[workflow_file name := WorkflowFile workflow]> (files st)
         /\ wf_name workflow = name /\ wf_steps workflow = steps
         /\ forallb step_json_ok steps = true)
  /\ (r = Raise TypeError ->
      can_makedirs P "workflows" (clock P (world st)).2 = true
      /\ can_open P (workflow_file name) (clock P (world st)).2 = true
      /\ files st' = <[workflow_file name := PartialFile]> (files st)
      /\ stdout st' = stdout st).
Proof.
  unfold create_workflow, bind at 1, datetime_now.
  destruct (clock P (world st)) as [now w]. cbn [snd].
  unfold bind at 1, makedirs. cbn [world set_world].
  destruct (can_makedirs P "workflows" w); [|by intros [= <- <-]].
  unfold bind at 1, dump_to. cbn [world set_world].
  destruct (can_open P (workflow_file name) w); [|by intros [= <- <-]].
  destruct (forallb step_json_ok steps) eqn:Hjson.
  - rewrite bind_log. intros [= <- <-].
    rewrite logged_history, logged_files. cbn.
    split; [done|]. split; [|split; [|done]].
    + intros path Hpath. by rewrite lookup_insert_ne.
    + by intros workflow [= <-].
  - intros [= <- <-]. cbn. split; [done|]. split; [|done].
    intros path Hpath. by rewrite lookup_insert_ne.
Qed.

(** X14.  A name is stored under its key only: two names with the same
    key, such as ["My Flow"] and ["my-flow"], share one file, and creating
    the second workflow replaces the first, of which nothing is left. *)
Theorem create_workflow_overwrites name1 name2 description1 description2
    steps1 steps2 st workflow1 st1 workflow2 st2 :
  storage_key name1 = storage_key name2 ->
  create_workflow P name1 description1 steps1 st = (Ok workflow1, st1) ->
  create_workflow P name2 description2 steps2 st1 = (Ok workflow2, st2) ->
  files st2 !! workflow_file name1 = Some (WorkflowFile workflow2)
  /\ files st2 = <[workflow_file name2 := WorkflowFile workflow2]> (files st).
Proof.
  intros Hkey H1 H2.
  apply create_workflow_effects in H1 as (_ & _ & Hok1 & _).
  apply create_workflow_effects in H2 as (_ & _ & Hok2 & _).
  destruct (Hok1 _ eq_refl) as (Hf1 & _). destruct (Hok2 _ eq_refl) as (Hf2 & _).
  assert (Hfile : workflow_file name1 = workflow_file name2)
    by (unfold workflow_file; by rewrite Hkey).
  rewrite Hf2, Hf1, Hfile, insert_insert_eq.
  by rewrite lookup_insert_eq.
Qed.

(** X15.  [create_workflow] opens the file before it encodes the steps.
    When a step holds a member of an enumeration, which [json.dump] cannot
    encode, and the file can be opened, [create_workflow] raises
    [TypeError]; by then the file holds the broken beginning of a document,
    whatever it held before, and nothing has been printed: the line
    "Created workflow" does not appear. *)
Theorem create_workflow_unencodable name description steps st :
  let w := (clock P (world st)).2 in
  can_makedirs P "workflows" w = true ->
  can_open P (workflow_file name) w = true ->
  forallb step_json_ok steps = false ->
  (create_workflow P name description steps st).1 = Raise TypeError
  /\ files (create_workflow P name description steps st).2
     = <[workflow_file name := PartialFile]> (files st)
  /\ stdout (create_workflow P name description steps st).2 = stdout st.
Proof.
  intros w Hdir Hopen Hjson. subst w.
  assert (Hr : (create_workflow P name description steps st).1 = Raise TypeError).
  { unfold create_workflow, bind at 1, datetime_now.
    destruct (clock P (world st)) as [now w]. cbn [fst snd] in *.
    unfold bind at 1, makedirs. cbn [world set_world]. rewrite Hdir.
    unfold bind at 1, dump_to. cbn [world set_world].
    by rewrite Hopen, Hjson. }
  split; [exact Hr|].
  destruct (create_workflow P name description steps st) as [r st'] eqn:Hrun.
  cbn [fst snd] in *.
  apply create_workflow_effects in Hrun as (_ & _ & _ & Hraise).
  by destruct (Hraise Hr) as (_ & _ & Hf & Hout).
Qed.

Lemma save_history_eq filename st :
  save_history P filename st
  = if can_open P filename (world st)
    then (Ok tt,
          logged P ("Saved workflow history to " +:+ filename) "INFO"
            (set_files
               (<[filename := HistoryFile (workflow_history st)]> (files st))
               (record (Written filename) st)))
    else (Raise OSError, st).
Proof.
  unfold save_history, bind, dump_to.
  destruct (can_open P filename (world st)); [by rewrite log_eq|done].
Qed.

(** X16.  [save_history] either returns, having put the history under the
    name it was given, or raises [OSError] because the file cannot be
    opened, having changed nothing at all.  Either way the history in
    memory is as before and no other file is touched. *)
Theorem save_history_effects filename st :
  workflow_history (save_history P filename st).2 = workflow_history st
  /\ (forall path, path <> filename ->
                   files (save_history P filename st).2 !! path
                   = files st !! path)
  /\ (((save_history P filename st).1 = Ok tt
       /\ files (save_history P filename st).2
          = <[filename := HistoryFile (workflow_history st)]> (files st))
      \/ ((save_history P filename st).1 = Raise OSError
          /\ (save_history P filename st).2 = st)).
Proof.
  rewrite save_history_eq.
  destruct (can_open P filename (world st)); cbn [fst snd].
  - rewrite logged_history, logged_files. cbn.
    split; [done|]. split; [|by left].
    intros path Hpath. by rewrite lookup_insert_ne.
  - split; [done|]. split; [done|]. by right.
Qed.

End MoreStorage.

Lemma create_workflow_overwrites_witness :
  files (create_workflow demo "my-flow" "second" [claude_step "b" []]
           (create_workflow demo "My Flow" "first" [claude_step "a" []] fresh).2).2
    !! workflow_file "My Flow"
  = Some (WorkflowFile
            (definition_of "my-flow" "second"
               {| isoformat := "T2"; strftime := "T2" |} [claude_step "b" []])).
Proof.
  edestruct (create_workflow_overwrites demo "My Flow" "my-flow" "first" "second"
               [claude_step "a" []] [claude_step "b" []] fresh) as [H _];
    [reflexivity|vm_compute; reflexivity|vm_compute; reflexivity|].
  exact H.
Defined.

Lemma create_workflow_unencodable_witness :
  (create_workflow demo "w" "d" [claude_step "a" [("tools", VList [VTool READ])]]
     fresh).1 = Raise TypeError.
Proof.
  apply (create_workflow_unencodable demo "w" "d"
           [claude_step "a" [("tools", VList [VTool READ])]] fresh);
    reflexivity.
Defined.

(** ** The example workflows and the script *)

Section Examples.
Context {World : Type} (P : Platform World).

(** X17.  Whichever way it ends, [create_workflow] leaves the history in
    memory as it was and touches no file but the one of the name. *)
Theorem create_workflow_touches_one_file name description steps st :
  workflow_history (create_workflow P name description steps st).2
  = workflow_history st
  /\ forall path, path <> workflow_file name ->
                  files (create_workflow P name description steps st).2 !! path
                  = files st !! path.
Proof.
  destruct (create_workflow P name description steps st) as [r st'] eqn:Hrun.
  by apply create_workflow_effects in Hrun as (Hh & Hf & _).
Qed.

(** X18.  When the storage takes every file, [create_example_workflows]
    returns having written two definitions, under the keys
    [tdd-feature-development] and [parallel-code-analysis], with the steps
    given in the source, and nothing else. *)
Theorem create_example_workflows_files st :
  (forall dir w, can_makedirs P dir w = true) ->
  (forall path w, can_open P path w = true) ->
  exists tdd parallel st',
    create_example_workflows P st = (Ok tt, st')
    /\ files st'
       = <["workflows/parallel-code-analysis.json" := WorkflowFile parallel]>
           (<["workflows/tdd-feature-development.json" := WorkflowFile tdd]>
              (files st))
    /\ wf_name tdd = "TDD Feature Development" /\ wf_steps tdd = tdd_steps
    /\ wf_name parallel = "Parallel Code Analysis"
    /\ wf_steps parallel = parallel_steps
    /\ workflow_history st' = workflow_history st.
Proof.
  intros Hdir Hopen. unfold create_example_workflows.
  destruct (create_workflow_run P "TDD Feature Development"
              "Develop features using Test-Driven Development" tdd_steps st
              (Hdir _ _) (Hopen _ _) eq_refl) as (st1 & Hrun1 & Hf1).
  rewrite (bind_ok _ _ _ _ _ Hrun1).
  destruct (create_workflow_run P "Parallel Code Analysis"
              "Analyze code from multiple perspectives simultaneously"
              parallel_steps st1 (Hdir _ _) (Hopen _ _) eq_refl)
    as (st2 & Hrun2 & Hf2).
  rewrite (bind_ok _ _ _ _ _ Hrun2).
  eexists _, _, st2. split; [reflexivity|].
  split; [by rewrite Hf2, Hf1|]. repeat split.
  apply create_workflow_effects in Hrun1 as (Hh1 & _).
  apply create_workflow_effects in Hrun2 as (Hh2 & _).
  by rewrite Hh2, Hh1.
Qed.

Lemma first_step_raises workflow step rest st e :
  wf_steps workflow = step :: rest ->
  (forall s, exists s',
      step_body P (execute_workflow P) workflow 0 step s = (Raise e, s')
      /\ calls s' = calls s /\ workflow_history s' = workflow_history s) ->
  (execute_workflow P workflow st).1 = Raise e
  /\ calls (execute_workflow P workflow st).2 = calls st
  /\ workflow_history (execute_workflow P workflow st).2 = workflow_history st.
Proof.
  intros Hsteps Hbody.
  rewrite execute_workflow_eq, Hsteps, for_steps_cons, execute_step_eq.
  destruct (Hbody (logged P ("Executing workflow: " +:+ wf_name workflow)
                     "INFO" st)) as (s' & -> & Hc & Hh).
  cbn [fst snd]. by rewrite Hc, Hh, logged_calls, logged_history.
Qed.

(** X19.  Neither of the two example workflows can be run.  Whatever the
    platform and the name under which the steps are run, the first step of
    "TDD Feature Development" raises [ValueError], its tool ["READ"] being
    the name and not the value of a member, and the first step of
    "Parallel Code Analysis" raises [AttributeError], its tasks giving
    their tools as strings; in both cases before any process is started
    and with the history as it was. *)
Theorem example_workflows_raise name info st :
  ((execute_workflow P
      {| wf_name := name; wf_info := info; wf_steps := tdd_steps |} st).1
   = Raise ValueError
   /\ calls (execute_workflow P
               {| wf_name := name; wf_info := info; wf_steps := tdd_steps |} st).2
      = calls st
   /\ workflow_history
        (execute_workflow P
           {| wf_name := name; wf_info := info; wf_steps := tdd_steps |} st).2
      = workflow_history st)
  /\ ((execute_workflow P
         {| wf_name := name; wf_info := info; wf_steps := parallel_steps |} st).1
      = Raise AttributeError
      /\ calls (execute_workflow P
                  {| wf_name := name; wf_info := info;
                     wf_steps := parallel_steps |} st).2
         = calls st
      /\ workflow_history
           (execute_workflow P
              {| wf_name := name; wf_info := info;
                 wf_steps := parallel_steps |} st).2
         = workflow_history st).
Proof.
  split.
  - eapply first_step_raises; [reflexivity|]. intros s.
    unfold step_body. rewrite bind_log.
    match goal with |- context [logged P ?m "INFO" s] =>
      set (s1 := logged P m "INFO" s) end.
    cbn [step_fields analyze_requirements].
    change (eq_str (dict_get _ "type" (VStr "claude_code")) "claude_code")
      with true. cbv iota.
    rewrite (bind_raise _ _ _ _ _
               (claude_code_call_unknown P (step_fields analyze_requirements) s1
                  (VStr "Analyze the requirements for the new feature. Do NOT write code.")
                  [VStr "READ"] eq_refl eq_refl
                  (Exists_cons_hd _ _ _
                     (proj2 (ClaudeTool_call_unknown (VStr "READ")) eq_refl)))).
    exists s1. subst s1. by rewrite logged_calls, logged_history.
  - assert (Hraise : forall s,
               run_parallel_tasks P
                 (VList [security_task; performance_task; maintainability_task]) s
               = (Raise AttributeError,
                  logged P ("Running " +:+ pretty 3%nat +:+ " tasks in parallel...")
                    "INFO" s)).
    { intros s. apply (run_parallel_tasks_all_raise P); [discriminate|].
      intros task Hin s'. apply run_task_untyped_tools.
      repeat (apply elem_of_cons in Hin as [->|Hin]);
        [| | |by apply elem_of_nil in Hin];
        eexists _, _, _;
        (split; [reflexivity|]); (split; [reflexivity|]);
        (split; [reflexivity|]); by apply Exists_cons_hd. }
    eapply first_step_raises; [reflexivity|]. intros s.
    unfold step_body. rewrite bind_log.
    cbn [step_fields parallel_analysis].
    change (eq_str (dict_get _ "type" (VStr "claude_code")) "claude_code")
      with false.
    change (eq_str (dict_get _ "type" (VStr "claude_code")) "parallel")
      with true. cbv iota.
    change (dict_get _ "tasks" (VList []))
      with (VList [security_task; performance_task; maintainability_task]).
    rewrite (bind_raise _ _ _ _ _ (Hraise _)).
    eexists. split; [reflexivity|].
    by rewrite !logged_calls, !logged_history.
Qed.

(** X20.  When the storage takes every file, the script runs to its end:
    it writes the two example definitions, starts one process, with the
    prompt ["think Analyze the current directory structure"] and the tools
    ["LS"] and ["Read"] allowed, and then saves the history, which was
    empty at the start and holds at most one entry, the one of that
    process. *)
Theorem main_runs st :
  (forall dir w, can_makedirs P dir w = true) ->
  (forall path w, can_open P path w = true) ->
  exists st',
    main P st = (Ok tt, st')
    /\ calls st'
       = calls st
         ++ [Written "workflows/tdd-feature-development.json";
             Written "workflows/parallel-code-analysis.json";
             Spawned ["claude"; "-p"; "think Analyze the current directory structure";
                      "--allowedTools"; "LS"; "Read"] VNone;
             Written "workflow-history.json"]
    /\ files st' !! "workflow-history.json"
       = Some (HistoryFile (workflow_history st'))
    /\ (length (workflow_history st') <= 1)%nat.
Proof.
  intros Hdir Hopen. unfold main, bind at 1, init.
  set (st0 := mkState true [] (stdout st) (files st) (calls st) (world st)).
  unfold bind at 1, create_example_workflows.
  destruct (create_workflow_run P "TDD Feature Development"
              "Develop features using Test-Driven Development" tdd_steps st0
              (Hdir _ _) (Hopen _ _) eq_refl) as (st1 & Hrun1 & _).
  rewrite (bind_ok _ _ _ _ _ Hrun1).
  destruct (create_workflow_run P "Parallel Code Analysis"
              "Analyze code from multiple perspectives simultaneously"
              parallel_steps st1 (Hdir _ _) (Hopen _ _) eq_refl)
    as (st2 & Hrun2 & _).
  rewrite (bind_ok _ _ _ _ _ Hrun2). cbn [ret].
  assert (Hcalls : forall name description steps s workflow s',
             create_workflow P name description steps s = (Ok workflow, s') ->
             calls s' = calls s ++ [Written (workflow_file name)]).
  { intros name description steps s workflow s'.
    unfold create_workflow, bind at 1, datetime_now.
    destruct (clock P (world s)) as [now w].
    unfold bind at 1, makedirs. cbn [world set_world].
    destruct (can_makedirs P "workflows" w); [|done].
    unfold bind at 1, dump_to. cbn [world set_world].
    destruct (can_open P (workflow_file name) w); [|done].
    destruct (forallb step_json_ok steps); [|done].
    rewrite bind_log. intros [= _ <-]. by rewrite logged_calls. }
  pose proof (Hcalls _ _ _ _ _ _ Hrun1) as Hc1.
  pose proof (Hcalls _ _ _ _ _ _ Hrun2) as Hc2.
  apply create_workflow_effects in Hrun1 as (Hh1 & _).
  apply create_workflow_effects in Hrun2 as (Hh2 & _).
  assert (Hempty : workflow_history st2 = []) by (by rewrite Hh2, Hh1).
  unfold bind at 1.
  change (VList [VTool LS; VTool READ]) with (VList (VTool <$> [LS; READ])).
  rewrite run_claude_code_typed.
  destruct (launch_effects P
              (command_for "Analyze the current directory structure" [LS; READ] THINK)
              VNone (sent_prompt THINK "Analyze the current directory structure")
              (ClaudeToolM.value <$> [LS; READ]) (ThinkLevelM.value THINK) st2)
    as (r & st3 & -> & Hc3 & _ & _ & Hh3).
  assert (Hlen : (length (workflow_history st3) <= 1)%nat).
  { destruct r as [out|]; [destruct Hh3 as [now Hh3]|];
      rewrite Hh3, Hempty; cbn; lia. }
  rewrite save_history_eq, Hopen.
  eexists. split; [reflexivity|].
  rewrite logged_calls, logged_files, logged_history. cbn.
  split; [|split; [|exact Hlen]].
  - rewrite Hc3, Hc2, Hc1. cbn. by rewrite <- !app_assoc.
  - apply lookup_insert_eq.
Qed.

End Examples.

Lemma create_example_workflows_files_witness :
  exists tdd parallel st',
    create_example_workflows demo fresh = (Ok tt, st')
    /\ files st'
       = <["workflows/parallel-code-analysis.json" := WorkflowFile parallel]>
           (<["workflows/tdd-feature-development.json" := WorkflowFile tdd]>
              (files fresh))
    /\ wf_name tdd = "TDD Feature Development" /\ wf_steps tdd = tdd_steps
    /\ wf_name parallel = "Parallel Code Analysis"
    /\ wf_steps parallel = parallel_steps
    /\ workflow_history st' = workflow_history fresh.
Proof.
  apply (create_example_workflows_files demo fresh); reflexivity.
Defined.

Lemma main_runs_witness :
  exists st',
    main demo fresh = (Ok tt, st')
    /\ calls st'
       = calls fresh
         ++ [Written "workflows/tdd-feature-development.json";
             Written "workflows/parallel-code-analysis.json";
             Spawned ["claude"; "-p"; "think Analyze the current directory structure";
                      "--allowedTools"; "LS"; "Read"] VNone;
             Written "workflow-history.json"]
    /\ files st' !! "workflow-history.json"
       = Some (HistoryFile (workflow_history st'))
    /\ (length (workflow_history st') <= 1)%nat.
Proof.
  apply (main_runs demo fresh); reflexivity.
Defined.

Section Announcement.
Context {World : Type} (P : Platform World).

Lemma logged_stdout message level st :
  exists t,
    stdout (logged P message level st)
    = stdout st ++ [{| l_timestamp := t; l_level := level;
                       l_message := message |}].
Proof.
  unfold logged, log, bind, datetime_now.
  destruct (clock P (world st)) as [now w]. by exists (strftime now).
Qed.

(** What [launch] prints. *)
Lemma launch_stdout cmd timeout prompt tool_names think_value st :
  exists t t' rest,
    stdout (launch P cmd timeout prompt tool_names think_value st).2
    = stdout st
      ++ {| l_timestamp := t; l_level := "INFO";
            l_message := "Running Claude Code: " +:+ join " " (take 3 cmd)
                         +:+ "..." |}
         :: (if debug st
             then [{| l_timestamp := t'; l_level := "DEBUG";
                      l_message := "Full command: " +:+ join " " cmd |}]
             else [])
         ++ rest
    /\ (length rest <= 1)%nat
    /\ Forall (fun line => l_level line = "ERROR") rest.
Proof.
  unfold launch. rewrite bind_log. unfold bind at 1.
  set (m1 := "Running Claude Code: " +:+ join " " (take 3 cmd) +:+ "...").
  destruct (logged_stdout m1 "INFO" st) as [t Ht].
  set (st1 := logged P m1 "INFO" st) in *.
  assert (exists t' st2,
             (if debug st1
              then log P ("Full command: " +:+ join " " cmd) "DEBUG"
              else ret tt) st1 = (Ok tt, st2)
             /\ stdout st2
                = stdout st1
                  ++ (if debug st
                      then [{| l_timestamp := t'; l_level := "DEBUG";
                               l_message := "Full command: " +:+ join " " cmd |}]
                      else []))
    as (t' & st2 & -> & Hst2).
  { subst st1. rewrite logged_debug. destruct (debug st).
    - destruct (logged_stdout ("Full command: " +:+ join " " cmd) "DEBUG"
                  (logged P m1 "INFO" st)) as [t' Ht'].
      exists t', (logged P ("Full command: " +:+ join " " cmd) "DEBUG"
                    (logged P m1 "INFO" st)).
      by rewrite log_eq.
    - exists t, (logged P m1 "INFO" st). by rewrite app_nil_r. }
  exists t, t'.
  assert (Herr : forall m w,
             exists rest,
               stdout (logged P m "ERROR"
                         (set_world w (record (Spawned cmd timeout) st2)))
               = stdout st
                 ++ {| l_timestamp := t; l_level := "INFO"; l_message := m1 |}
                    :: (if debug st
                        then [{| l_timestamp := t'; l_level := "DEBUG";
                                 l_message := "Full command: " +:+ join " " cmd |}]
                        else [])
                    ++ rest
               /\ (length rest <= 1)%nat
               /\ Forall (fun line => l_level line = "ERROR") rest).
  { intros m w.
    destruct (logged_stdout m "ERROR"
                (set_world w (record (Spawned cmd timeout) st2))) as [t3 Ht3].
    eexists [_]. rewrite Ht3. cbn [stdout set_world record].
    rewrite Hst2, Ht, <- !app_assoc. cbn [app].
    split; [reflexivity|]. split; [cbn; lia|]. by repeat constructor. }
  unfold bind at 1, spawn.
  destruct (subprocess_run P cmd timeout (world st2)) as [result w].
  destruct result as [returncode out err| |message].
  - destruct (negb (returncode =? 0)).
    + rewrite bind_log. cbn [ret snd]. apply Herr.
    + unfold bind at 1, datetime_now. cbn [world set_world record].
      destruct (clock P w) as [now w']. cbn.
      exists []. rewrite Hst2, Ht, <- !app_assoc, app_nil_r. cbn [app].
      split; [reflexivity|]. split; [cbn; lia|]. constructor.
  - rewrite bind_log. cbn [ret snd]. apply Herr.
  - rewrite bind_log. cbn [ret snd]. apply Herr.
Qed.

(** X21.  The first line of [run_claude_code] shows the first three items
    of the command only: [claude -p] and the whole prompt as it is sent,
    never the tools.  With [debug] the next line is the full command, at
    level [DEBUG].  After that at most one line follows, an error: the
    output of the process is never printed. *)
Theorem run_claude_code_announcement prompt tools level timeout st :
  exists t t' rest,
    stdout (run_claude_code P (VStr prompt) (VList (VTool <$> tools))
              (VThink level) timeout st).2
    = stdout st
      ++ {| l_timestamp := t; l_level := "INFO";
            l_message := "Running Claude Code: claude -p "
                         +:+ sent_prompt level prompt +:+ "..." |}
         :: (if debug st
             then [{| l_timestamp := t'; l_level := "DEBUG";
                      l_message := "Full command: "
                                   +:+ join " " (command_for prompt tools level) |}]
             else [])
         ++ rest
    /\ (length rest <= 1)%nat
    /\ Forall (fun line => l_level line = "ERROR") rest.
Proof.
  rewrite run_claude_code_typed.
  destruct (launch_stdout (command_for prompt tools level) timeout
              (sent_prompt level prompt) (ClaudeToolM.value <$> tools)
              (ThinkLevelM.value level) st) as (t & t' & rest & Hout & Hrest).
  exists t, t', rest. split; [exact Hout|exact Hrest].
Qed.

(** X22.  A condition that is true but is not a string, [True] or a number
    say, makes [eval] raise [TypeError]: the step raises after its heading
    line, nothing has been evaluated and the nested steps are not run. *)
Theorem non_string_condition_raises recur workflow i step st :
  dict_get (step_fields step) "type" (VStr "claude_code") = VStr "conditional" ->
  truthy (dict_get (step_fields step) "condition" VNone) = true ->
  (forall expr, dict_get (step_fields step) "condition" VNone <> VStr expr) ->
  step_body P recur workflow i step st
  = (Raise TypeError, logged P (step_line P workflow i step) "INFO" st).
Proof.
  intros Hty Htrue Hstr. rewrite step_body_conditional by done. cbv zeta.
  rewrite Htrue.
  destruct (dict_get (step_fields step) "condition" VNone) as [| | |expr| | | |];
    try reflexivity.
  by destruct (Hstr expr).
Qed.

End Announcement.

Lemma non_string_condition_raises_witness :
  step_body demo (execute_workflow demo)
    {| wf_name := "w"; wf_info := []; wf_steps := [] |} 0
    (mkStep [("type", VStr "conditional"); ("condition", VBool true)]
       [claude_step "a" []]) fresh
  = (Raise TypeError,
     logged demo
       (step_line demo {| wf_name := "w"; wf_info := []; wf_steps := [] |} 0
          (mkStep [("type", VStr "conditional"); ("condition", VBool true)]
             [claude_step "a" []])) "INFO" fresh).
Proof.
  apply (non_string_condition_raises demo); [reflexivity|reflexivity|].
  intros expr. discriminate.
Defined.
